(** * Planning frame (modules/planning/common/frame.cc)

    A shallow embedding of [apollo::planning::Frame]: the per-cycle planning
    context that validates its inputs, asks the map and the smoother for a
    reference line, ingests predicted obstacles and attaches them to every
    reference-line candidate, and re-bases prediction timestamps.

    C++ [double] is Rocq's primitive binary64 [float]; [std::vector] and
    protobuf repeated fields are lists, indexed with stdpp's lookup and
    alter; member functions are computations of a small state monad over the
    process-wide statics and the frame they are called on.  A computation
    that runs into undefined behaviour of the C++ (a null map dereferenced,
    [front()] or [operator[]] on an empty vector) has no result.

    Left out: RecordInputDebug, which copies adapter messages into the debug
    part of the output trajectory, DebugString, and FrameHistory, whose
    constructor only passes FLAGS_max_history_frame_num to IndexedQueue. *)

From Stdlib Require Import PrimFloat.
From stdpp Require Import base option list strings pretty.

Set Default Proof Using "Type".

(** ** Messages *)

(** [common::PointENU], as far as frame.cc reads it: [x()] and [y()]. *)
Module PointENU.
Record t : Type := mk { x : float; y : float }.
End PointENU.

(** Parts of the protobuf messages and planning classes that frame.cc
    stores, copies or hands on without looking inside them. *)
Class Messages : Type := {
  PoseOther : Type;                 (* localization::Pose besides position *)
  RoutingResponse : Type;           (* routing::RoutingResponse *)
  HeaderOther : Type;               (* common::Header besides timestamp_sec *)
  TrajectoryPointOther : Type;      (* path_point, v, a, ... *)
  TrajectoryOther : Type;           (* prediction::Trajectory besides its points *)
  PredictionObstacleOther : Type;   (* perception obstacle, time stamps, ... *)
  PredictionObstaclesOther : Type;  (* remaining fields of the prediction set *)
  ADCTrajectory : Type;
  PlanningData : Type;
  ReferenceLineSmootherConfig : Type;
  PlanningConfigOther : Type;
  ReferenceLine : Type;
  InfoState : Type;                 (* obstacles and decisions of a candidate *)
  Obstacle : Type;
  IndexedObstacles : Type;          (* IndexedQueue<std::string, Obstacle> *)
  PncMap : Type;                    (* hdmap::PncMap *)
  Path : Type;                      (* hdmap::Path *)
}.

Section Model.
Context `{Msg : Messages}.

Record Pose : Type := {
  position : PointENU.t;
  pose_other : PoseOther;
}.

Record Header : Type := {
  timestamp_sec : float;
  header_other : HeaderOther;
}.

Record TrajectoryPoint : Type := {
  relative_time : float;
  point_other : TrajectoryPointOther;
}.

Record Trajectory : Type := {
  trajectory_point : list TrajectoryPoint;
  trajectory_other : TrajectoryOther;
}.

Record PredictionObstacle : Type := {
  trajectory : list Trajectory;
  prediction_obstacle_other : PredictionObstacleOther;
}.

Record PredictionObstacles : Type := {
  header : Header;
  prediction_obstacle : list PredictionObstacle;
  prediction_other : PredictionObstaclesOther;
}.

Record PlanningConfig : Type := {
  reference_line_smoother_config : ReferenceLineSmootherConfig;
  planning_config_other : PlanningConfigOther;
}.

(** Modelled from the spec: class ReferenceLineInfo (reference_line_info.h
    and .cc are not part of the sources at hand).  It wraps the reference
    line it was constructed from, which stays as the builder produced it,
    together with the obstacles attached to it and its decision container;
    the latter two are [InfoState]. *)
Record ReferenceLineInfo : Type := {
  rli_reference_line : ReferenceLine;
  rli_state : InfoState;
}.

(** ** Collaborators

    Functions of other translation units that frame.cc calls. *)
Class Collaborators : Type := {
  (* pnc_map_->CreatePathFromRouting(routing, position, backward, forward,
     &hdmap_path): [None] when it returns false. *)
  CreatePathFromRouting :
    PncMap → RoutingResponse → PointENU.t → float → float → option Path;
  (* ReferenceLine() and ReferenceLine(hdmap_path) *)
  ReferenceLine_default : ReferenceLine;
  ReferenceLine_of_path : Path → ReferenceLine;
  (* smoother.Init(config); smoother.smooth(raw, &out) with [out] a fresh
     ReferenceLine(): the flag returned and what [out] holds afterwards. *)
  smooth : ReferenceLineSmootherConfig → ReferenceLine → bool * ReferenceLine;
  (* Obstacle::CreateObstacles(prediction, &obstacles) and Obstacle::Id() *)
  CreateObstacles : PredictionObstacles → list Obstacle;
  Id : Obstacle → string;
  (* IndexedQueue::Add(id, ptr), with the flag the registry answers, and
     IndexedQueue::Items() *)
  Add : string → Obstacle → IndexedObstacles → bool * IndexedObstacles;
  Items : IndexedObstacles → list Obstacle;
  (* ReferenceLineInfo(reference_line) and info.AddObstacles(items) *)
  InfoState_init : ReferenceLine → InfoState;
  AddObstacles : list Obstacle → ReferenceLine → InfoState → bool * InfoState;
}.

Context `{Ext : Collaborators}.

(** ** The frame and the process-wide state *)

Record Frame : Type := {
  sequence_num_ : N;
  init_pose_ : Pose;
  routing_response_ : RoutingResponse;
  planning_start_point_ : TrajectoryPoint;
  prediction_ : PredictionObstacles;
  obstacles_ : IndexedObstacles;
  reference_line_info_ : list ReferenceLineInfo;
  reference_line_ : ReferenceLine;
  (* PathDecision *: the index of the candidate whose decision container it
     points to; [None] is the pointer before Init has set it *)
  path_decision_ : option nat;
  smoother_config_ : ReferenceLineSmootherConfig;
  trajectory_pb_ : ADCTrajectory;
  _planning_data : PlanningData;
}.

(** The gflags frame.cc reads. *)
Record Flags : Type := {
  FLAGS_enable_prediction : bool;
  FLAGS_look_backward_distance : float;
  FLAGS_look_forward_distance : float;
  FLAGS_enable_record_debug : bool;
}.

(** Calls into the collaborators, in the order they are made. *)
Inductive Call : Type :=
  | CallCreatePathFromRouting (position : PointENU.t)
  | CallSmooth
  | CallCreateObstacles
  | CallAdd (id : string)
  | CallAddObstacles (candidate : nat).

Record World : Type := {
  pnc_map_ : option PncMap;        (* static const hdmap::PncMap *pnc_map_ *)
  FLAGS : Flags;
  this : Frame;
  calls : list Call;
}.

Definition with_pnc_map_ (m : option PncMap) (w : World) : World :=
  {| pnc_map_ := m; FLAGS := FLAGS w; this := this w; calls := calls w |}.
Definition with_this (f : Frame) (w : World) : World :=
  {| pnc_map_ := pnc_map_ w; FLAGS := FLAGS w; this := f; calls := calls w |}.
Definition with_calls (cs : list Call) (w : World) : World :=
  {| pnc_map_ := pnc_map_ w; FLAGS := FLAGS w; this := this w; calls := cs |}.

Definition with_init_pose_ (v : Pose) (f : Frame) : Frame :=
  {| sequence_num_ := sequence_num_ f; init_pose_ := v;
     routing_response_ := routing_response_ f;
     planning_start_point_ := planning_start_point_ f;
     prediction_ := prediction_ f; obstacles_ := obstacles_ f;
     reference_line_info_ := reference_line_info_ f;
     reference_line_ := reference_line_ f;
     path_decision_ := path_decision_ f;
     smoother_config_ := smoother_config_ f;
     trajectory_pb_ := trajectory_pb_ f; _planning_data := _planning_data f |}.
Definition with_routing_response_ (v : RoutingResponse) (f : Frame) : Frame :=
  {| sequence_num_ := sequence_num_ f; init_pose_ := init_pose_ f;
     routing_response_ := v;
     planning_start_point_ := planning_start_point_ f;
     prediction_ := prediction_ f; obstacles_ := obstacles_ f;
     reference_line_info_ := reference_line_info_ f;
     reference_line_ := reference_line_ f;
     path_decision_ := path_decision_ f;
     smoother_config_ := smoother_config_ f;
     trajectory_pb_ := trajectory_pb_ f; _planning_data := _planning_data f |}.
Definition with_planning_start_point_ (v : TrajectoryPoint) (f : Frame) : Frame :=
  {| sequence_num_ := sequence_num_ f; init_pose_ := init_pose_ f;
     routing_response_ := routing_response_ f;
     planning_start_point_ := v;
     prediction_ := prediction_ f; obstacles_ := obstacles_ f;
     reference_line_info_ := reference_line_info_ f;
     reference_line_ := reference_line_ f;
     path_decision_ := path_decision_ f;
     smoother_config_ := smoother_config_ f;
     trajectory_pb_ := trajectory_pb_ f; _planning_data := _planning_data f |}.
Definition with_prediction_ (v : PredictionObstacles) (f : Frame) : Frame :=
  {| sequence_num_ := sequence_num_ f; init_pose_ := init_pose_ f;
     routing_response_ := routing_response_ f;
     planning_start_point_ := planning_start_point_ f;
     prediction_ := v; obstacles_ := obstacles_ f;
     reference_line_info_ := reference_line_info_ f;
     reference_line_ := reference_line_ f;
     path_decision_ := path_decision_ f;
     smoother_config_ := smoother_config_ f;
     trajectory_pb_ := trajectory_pb_ f; _planning_data := _planning_data f |}.
Definition with_obstacles_ (v : IndexedObstacles) (f : Frame) : Frame :=
  {| sequence_num_ := sequence_num_ f; init_pose_ := init_pose_ f;
     routing_response_ := routing_response_ f;
     planning_start_point_ := planning_start_point_ f;
     prediction_ := prediction_ f; obstacles_ := v;
     reference_line_info_ := reference_line_info_ f;
     reference_line_ := reference_line_ f;
     path_decision_ := path_decision_ f;
     smoother_config_ := smoother_config_ f;
     trajectory_pb_ := trajectory_pb_ f; _planning_data := _planning_data f |}.
Definition with_reference_line_info_ (v : list ReferenceLineInfo) (f : Frame)
    : Frame :=
  {| sequence_num_ := sequence_num_ f; init_pose_ := init_pose_ f;
     routing_response_ := routing_response_ f;
     planning_start_point_ := planning_start_point_ f;
     prediction_ := prediction_ f; obstacles_ := obstacles_ f;
     reference_line_info_ := v;
     reference_line_ := reference_line_ f;
     path_decision_ := path_decision_ f;
     smoother_config_ := smoother_config_ f;
     trajectory_pb_ := trajectory_pb_ f; _planning_data := _planning_data f |}.
Definition with_reference_line_ (v : ReferenceLine) (f : Frame) : Frame :=
  {| sequence_num_ := sequence_num_ f; init_pose_ := init_pose_ f;
     routing_response_ := routing_response_ f;
     planning_start_point_ := planning_start_point_ f;
     prediction_ := prediction_ f; obstacles_ := obstacles_ f;
     reference_line_info_ := reference_line_info_ f;
     reference_line_ := v;
     path_decision_ := path_decision_ f;
     smoother_config_ := smoother_config_ f;
     trajectory_pb_ := trajectory_pb_ f; _planning_data := _planning_data f |}.
Definition with_path_decision_ (v : option nat) (f : Frame) : Frame :=
  {| sequence_num_ := sequence_num_ f; init_pose_ := init_pose_ f;
     routing_response_ := routing_response_ f;
     planning_start_point_ := planning_start_point_ f;
     prediction_ := prediction_ f; obstacles_ := obstacles_ f;
     reference_line_info_ := reference_line_info_ f;
     reference_line_ := reference_line_ f;
     path_decision_ := v;
     smoother_config_ := smoother_config_ f;
     trajectory_pb_ := trajectory_pb_ f; _planning_data := _planning_data f |}.
Definition with_smoother_config_ (v : ReferenceLineSmootherConfig) (f : Frame)
    : Frame :=
  {| sequence_num_ := sequence_num_ f; init_pose_ := init_pose_ f;
     routing_response_ := routing_response_ f;
     planning_start_point_ := planning_start_point_ f;
     prediction_ := prediction_ f; obstacles_ := obstacles_ f;
     reference_line_info_ := reference_line_info_ f;
     reference_line_ := reference_line_ f;
     path_decision_ := path_decision_ f;
     smoother_config_ := v;
     trajectory_pb_ := trajectory_pb_ f; _planning_data := _planning_data f |}.

(** ** The monad of member functions *)

Definition M (A : Type) : Type := World → option (A * World).

#[export] Instance M_ret : MRet M := λ A a w, Some (a, w).
#[export] Instance M_bind : MBind M := λ A B k m w,
  match m w with
  | Some (a, w') => k a w'
  | None => None
  end.

Definition get_world : M World := λ w, Some (w, w).
Definition get_this : M Frame := λ w, Some (this w, w).
Definition modify_this (g : Frame → Frame) : M unit :=
  λ w, Some (tt, with_this (g (this w)) w).
Definition log (c : Call) : M unit :=
  λ w, Some (tt, with_calls (calls w ++ [c]) w).
(** Undefined behaviour of the C++. *)
Definition undefined {A : Type} : M A := λ _, None.

(** A range-for over a container whose body returns nothing. *)
Fixpoint for_each {A : Type} (l : list A) (body : A → M unit) : M unit :=
  match l with
  | [] => mret tt
  | a :: l' => _ ← body a; for_each l' body
  end.

(** [for (int i = 0; i < n; i++) body], on a state threaded through. *)
Definition for_loop {S : Type} (n : nat) (body : nat → S → S) (s : S) : S :=
  foldl (λ s i, body i s) s (seq 0 n).

(** ** Member functions *)

(** [Frame::SetMap]: the pointer may be null. *)
Definition SetMap (pnc_map : option PncMap) : M unit :=
  λ w, Some (tt, with_pnc_map_ pnc_map w).

Definition SetVehicleInitPose (pose : Pose) : M unit :=
  modify_this (with_init_pose_ pose).

Definition SetRoutingResponse (routing : RoutingResponse) : M unit :=
  modify_this (with_routing_response_ routing).

Definition SetPlanningStartPoint (start_point : TrajectoryPoint) : M unit :=
  modify_this (with_planning_start_point_ start_point).

Definition SetPrediction (prediction : PredictionObstacles) : M unit :=
  modify_this (with_prediction_ prediction).

Definition reference_line_info (f : Frame) : list ReferenceLineInfo :=
  reference_line_info_ f.

Definition reference_line (f : Frame) : ReferenceLine := reference_line_ f.

Definition GetObstacles (f : Frame) : IndexedObstacles := obstacles_ f.

(** [Frame::path_decision]: what the stored pointer points to, if anything. *)
Definition path_decision (f : Frame) : option InfoState :=
  i ← path_decision_ f; info ← reference_line_info_ f !! i; Some (rli_state info).

(** [obstacles_.Add(id, std::move(ptr));] the answer of Add is dropped. *)
Definition add_to_obstacles_ (ptr : Obstacle) : M unit :=
  let id := Id ptr in
  _ ← log (CallAdd id);
  modify_this (λ f, with_obstacles_ (Add id ptr (obstacles_ f)).2 f).

(** [Frame::AddObstacle] is declared to return bool and has no return
    statement: after the Add, control flows off the end of the function. *)
Definition AddObstacle (obstacle : Obstacle) : M bool :=
  _ ← add_to_obstacles_ obstacle; undefined.

Definition CreatePredictionObstacles (prediction : PredictionObstacles)
    : M unit :=
  _ ← log CallCreateObstacles;
  let obstacles := CreateObstacles prediction in
  for_each obstacles add_to_obstacles_.

(** One round of the second loop of InitReferenceLineInfo: AddObstacles on
    the candidate at index [i], written back in place. *)
Definition add_obstacles_at (i : nat) : M bool :=
  f ← get_this;
  match reference_line_info_ f !! i with
  | None => undefined
  | Some info =>
      _ ← log (CallAddObstacles i);
      let '(ok, st) :=
        AddObstacles (Items (obstacles_ f)) (rli_reference_line info)
                     (rli_state info) in
      let info' := {| rli_reference_line := rli_reference_line info;
                      rli_state := st |} in
      _ ← modify_this (λ f,
            with_reference_line_info_ (<[i := info']> (reference_line_info_ f)) f);
      mret ok
  end.

(** The loop leaves at the first candidate whose AddObstacles fails. *)
Fixpoint add_obstacles_from (indices : list nat) : M bool :=
  match indices with
  | [] => mret true
  | i :: rest =>
      ok ← add_obstacles_at i;
      if (ok : bool) then add_obstacles_from rest else mret false
  end.

Definition emplace_back_info (reference_line : ReferenceLine) : M unit :=
  modify_this (λ f,
    with_reference_line_info_
      (reference_line_info_ f ++
         [{| rli_reference_line := reference_line;
             rli_state := InfoState_init reference_line |}]) f).

Definition InitReferenceLineInfo (reference_lines : list ReferenceLine)
    : M bool :=
  _ ← modify_this (with_reference_line_info_ []);
  _ ← for_each reference_lines emplace_back_info;
  f ← get_this;
  add_obstacles_from (seq 0 (length (reference_line_info_ f))).

(** The vector behind the pointer [reference_lines] goes in and comes out
    next to the flag. *)
Definition CreateReferenceLineFromRouting (position : PointENU.t)
    (routing : RoutingResponse) (reference_lines : list ReferenceLine)
    : M (bool * list ReferenceLine) :=
  w ← get_world;
  match pnc_map_ w with
  | None => undefined
  | Some map =>
      _ ← log (CallCreatePathFromRouting position);
      match CreatePathFromRouting map routing position
              (FLAGS_look_backward_distance (FLAGS w))
              (FLAGS_look_forward_distance (FLAGS w)) with
      | None => mret (false, reference_lines)
      | Some hdmap_path =>
          let back := length reference_lines in
          let reference_lines := reference_lines ++ [ReferenceLine_default] in
          _ ← log CallSmooth;
          let '(ok, out) :=
            smooth (smoother_config_ (this w)) (ReferenceLine_of_path hdmap_path) in
          let reference_lines := <[back := out]> reference_lines in
          if ok then mret (true, reference_lines)
          else mret (false, reference_lines)
      end
  end.

(** [reference_lines.front()] *)
Definition front (reference_lines : list ReferenceLine) : M ReferenceLine :=
  match reference_lines with
  | [] => undefined
  | l :: _ => mret l
  end.

Definition Init (config : PlanningConfig) : M bool :=
  w ← get_world;
  match pnc_map_ w with
  | None => mret false
  | Some _ =>
      let point := position (init_pose_ (this w)) in
      if is_nan (PointENU.x point) || is_nan (PointENU.y point) then mret false
      else
        _ ← modify_this
              (with_smoother_config_ (reference_line_smoother_config config));
        f ← get_this;
        '(ok, reference_lines) ←
          CreateReferenceLineFromRouting (position (init_pose_ f))
            (routing_response_ f) [];
        if negb ok then mret false
        else
          _ ← (if FLAGS_enable_prediction (FLAGS w)
               then CreatePredictionObstacles (prediction_ f)
               else mret tt);
          _ ← InitReferenceLineInfo reference_lines;
          l ← front reference_lines;
          _ ← modify_this (with_reference_line_ l);
          f ← get_this;
          match reference_line_info_ f !! 0%nat with
          | None => undefined
          | Some _ =>
              _ ← modify_this (with_path_decision_ (Some 0%nat));
              mret true
          end
  end.

(** The body of the innermost loop of AlignPredictionTime. *)
Definition align_point (prediction_header_time trajectory_header_time : float)
    (point : TrajectoryPoint) : TrajectoryPoint :=
  let abs_relative_time := relative_time point in
  {| relative_time :=
       PrimFloat.sub (PrimFloat.add prediction_header_time abs_relative_time)
                     trajectory_header_time;
     point_other := point_other point |}.

Definition align_trajectory (prediction_header_time trajectory_header_time : float)
    (trajectory : Trajectory) : Trajectory :=
  {| trajectory_point :=
       for_loop (length (trajectory_point trajectory))
         (λ k points,
            alter (align_point prediction_header_time trajectory_header_time)
                  k points)
         (trajectory_point trajectory);
     trajectory_other := trajectory_other trajectory |}.

Definition align_obstacle (prediction_header_time trajectory_header_time : float)
    (obstacle : PredictionObstacle) : PredictionObstacle :=
  {| trajectory :=
       for_loop (length (trajectory obstacle))
         (λ j trajectories,
            alter (align_trajectory prediction_header_time trajectory_header_time)
                  j trajectories)
         (trajectory obstacle);
     prediction_obstacle_other := prediction_obstacle_other obstacle |}.

Definition align_prediction (trajectory_header_time : float)
    (prediction : PredictionObstacles) : PredictionObstacles :=
  let prediction_header_time := timestamp_sec (header prediction) in
  {| header := header prediction;
     prediction_obstacle :=
       for_loop (length (prediction_obstacle prediction))
         (λ i obstacles,
            alter (align_obstacle prediction_header_time trajectory_header_time)
                  i obstacles)
         (prediction_obstacle prediction);
     prediction_other := prediction_other prediction |}.

Definition AlignPredictionTime (trajectory_header_time : float) : M unit :=
  modify_this (λ f,
    with_prediction_ (align_prediction trajectory_header_time (prediction_ f)) f).

(** ** Observations used in the statements *)

(** Point [k] of trajectory [j] of obstacle [i] of a prediction set. *)
Definition point_at (p : PredictionObstacles) (i j k : nat)
    : option TrajectoryPoint :=
  ob ← prediction_obstacle p !! i; tr ← trajectory ob !! j;
  trajectory_point tr !! k.

(** How many obstacles, trajectories per obstacle and points per trajectory
    a prediction set has. *)
Definition shape (p : PredictionObstacles) : list (list nat) :=
  (λ ob, (λ tr, length (trajectory_point tr)) <$> trajectory ob)
    <$> prediction_obstacle p.

(** Two prediction sets that agree on everything but the relative times of
    their points. *)
Definition same_point (a b : TrajectoryPoint) : Prop :=
  point_other a = point_other b.
Definition same_trajectory (a b : Trajectory) : Prop :=
  trajectory_other a = trajectory_other b ∧
  Forall2 same_point (trajectory_point a) (trajectory_point b).
Definition same_obstacle (a b : PredictionObstacle) : Prop :=
  prediction_obstacle_other a = prediction_obstacle_other b ∧
  Forall2 same_trajectory (trajectory a) (trajectory b).
Definition same_prediction (p q : PredictionObstacles) : Prop :=
  header p = header q ∧ prediction_other p = prediction_other q ∧
  Forall2 same_obstacle (prediction_obstacle p) (prediction_obstacle q).

(** The registry after [obstacles] were offered to Add one by one. *)
Definition ingest (obstacles : list Obstacle) (reg : IndexedObstacles)
    : IndexedObstacles :=
  foldl (λ r o, (Add (Id o) o r).2) reg obstacles.

(** The registry as Init leaves it once the builder has succeeded. *)
Definition registry_after_Init (w : World) : IndexedObstacles :=
  if FLAGS_enable_prediction (FLAGS w)
  then ingest (CreateObstacles (prediction_ (this w))) (obstacles_ (this w))
  else obstacles_ (this w).

(** The candidate built for reference line [l] with [items] on offer, and
    whether attaching them succeeded. *)
Definition candidate (items : list Obstacle) (l : ReferenceLine)
    : bool * ReferenceLineInfo :=
  let r := AddObstacles items l (InfoState_init l) in
  (r.1, {| rli_reference_line := l; rli_state := r.2 |}).

(** The calls an Init makes once the builder has succeeded. *)
Definition calls_of_Init (w : World) : list Call :=
  [CallCreatePathFromRouting (position (init_pose_ (this w))); CallSmooth] ++
  (if FLAGS_enable_prediction (FLAGS w)
   then CallCreateObstacles ::
        ((λ o, CallAdd (Id o)) <$> CreateObstacles (prediction_ (this w)))
   else []) ++
  [CallAddObstacles 0].

(** The world after an Init whose builder produced reference line [l]. *)
Definition after_Init (config : PlanningConfig) (l : ReferenceLine) (w : World)
    : World :=
  let obs := registry_after_Init w in
  with_calls (calls w ++ calls_of_Init w)
    (with_this
       (with_path_decision_ (Some 0%nat)
          (with_reference_line_ l
             (with_reference_line_info_ [(candidate (Items obs) l).2]
                (with_obstacles_ obs
                   (with_smoother_config_
                      (reference_line_smoother_config config) (this w))))))
       w).

(** The world in which Init calls InitReferenceLineInfo, the builder having
    succeeded. *)
Definition before_attach (config : PlanningConfig) (w : World) : World :=
  with_calls
    (calls w ++
     [CallCreatePathFromRouting (position (init_pose_ (this w))); CallSmooth] ++
     (if FLAGS_enable_prediction (FLAGS w)
      then CallCreateObstacles ::
           ((λ o, CallAdd (Id o)) <$> CreateObstacles (prediction_ (this w)))
      else []))
    (with_this
       (with_obstacles_ (registry_after_Init w)
          (with_smoother_config_ (reference_line_smoother_config config)
             (this w)))
       w).

(** What Init does after InitReferenceLineInfo has left world [w1]. *)
Definition finish_Init (l : ReferenceLine) (w1 : World) : World :=
  with_this (with_path_decision_ (Some 0%nat) (with_reference_line_ l (this w1)))
    w1.

(** The second loop of InitReferenceLineInfo on the candidates it walks:
    the flag it ends with and the candidates as it leaves them.  The
    candidates behind the first failure are not visited. *)
Fixpoint attach_all (items : list Obstacle) (infos : list ReferenceLineInfo)
    : bool * list ReferenceLineInfo :=
  match infos with
  | [] => (true, [])
  | info :: rest =>
      let r := AddObstacles items (rli_reference_line info) (rli_state info) in
      let info' := {| rli_reference_line := rli_reference_line info;
                      rli_state := r.2 |} in
      if r.1 then (let r' := attach_all items rest in (r'.1, info' :: r'.2))
      else (false, info' :: rest)
  end.

(** The candidates as the first loop of InitReferenceLineInfo creates them. *)
Definition fresh_infos (reference_lines : list ReferenceLine)
    : list ReferenceLineInfo :=
  (λ l, {| rli_reference_line := l; rli_state := InfoState_init l |})
    <$> reference_lines.

(** ** Further member functions and observations *)

(** [Frame::DebugString]: "Frame: " and the sequence number in decimal, as
    std::to_string writes an unsigned number. *)
Definition DebugString (f : Frame) : string :=
  "Frame: " +:+ pretty (sequence_num_ f).

(** The world after an Init whose builder failed, at the map or, the
    smoother having been called, at the smoother. *)
Definition after_failed_builder (config : PlanningConfig)
    (smoother_called : bool) (w : World) : World :=
  with_calls
    (calls w ++
     CallCreatePathFromRouting (position (init_pose_ (this w))) ::
     (if smoother_called then [CallSmooth] else []))
    (with_this
       (with_smoother_config_ (reference_line_smoother_config config) (this w))
       w).

(** On how many candidates the second loop of InitReferenceLineInfo calls
    AddObstacles. *)
Fixpoint attempts (items : list Obstacle) (infos : list ReferenceLineInfo)
    : nat :=
  match infos with
  | [] => 0
  | info :: rest =>
      if (AddObstacles items (rli_reference_line info) (rli_state info)).1
      then S (attempts items rest)
      else 1
  end.

End Model.

(** ** Stand-ins for the collaborators

    Small concrete collaborators on which the model runs: a map that finds a
    path when the routing covers the position, a smoother that converges when
    its configuration says so, obstacles that are their identities. *)
Module Demo.

#[export] Instance messages : Messages := {|
  PoseOther := unit;
  RoutingResponse := bool;            (* does the routing cover the pose? *)
  HeaderOther := unit;
  TrajectoryPointOther := unit;
  TrajectoryOther := unit;
  PredictionObstacleOther := string;  (* identity of the predicted obstacle *)
  PredictionObstaclesOther := unit;
  ADCTrajectory := unit;
  PlanningData := unit;
  ReferenceLineSmootherConfig := bool; (* does smoothing converge? *)
  PlanningConfigOther := unit;
  ReferenceLine := nat;
  InfoState := list string;           (* identities attached so far *)
  Obstacle := string;
  IndexedObstacles := list (string * string);
  PncMap := unit;
  Path := nat;
|}.

(** Modelled from the spec: IndexedQueue::Add, whose source is not at hand
    (the Keyed Bounded Registry, unbounded here): it inserts the value
    under the key at the end of the insertion order and fails, leaving the
    registry as it is, if the key already exists. *)
Definition registry_add (id : string) (o : string)
    (reg : list (string * string)) : bool * list (string * string) :=
  if bool_decide (id ∈ reg.*1) then (false, reg) else (true, reg ++ [(id, o)]).

(** Attaching fails when an obstacle without identity is offered. *)
Definition attach (items : list string) (l : nat) (st : list string)
    : bool * list string :=
  if bool_decide (""%string ∈ items) then (false, st) else (true, st ++ items).

Definition map_path (_ : PncMap) (routing : RoutingResponse)
    (_ : PointENU.t) (_ _ : float) : option Path :=
  if (routing : bool) then Some 7%nat else None.

Definition smoother (converges : ReferenceLineSmootherConfig)
    (raw : ReferenceLine) : bool * ReferenceLine :=
  (converges, if (converges : bool) then raw else 0%nat).

Definition obstacles_of (p : PredictionObstacles) : list Obstacle :=
  prediction_obstacle_other <$> prediction_obstacle p.

#[export] Instance collaborators : @Collaborators messages :=
  @Build_Collaborators messages
    map_path
    0%nat
    (λ p, p)
    smoother
    obstacles_of
    (λ o, o)
    registry_add
    (λ reg, reg.*2)
    (λ _, [])
    attach.

Definition flags (enable_prediction : bool) : Flags := {|
  FLAGS_enable_prediction := enable_prediction;
  FLAGS_look_backward_distance := 30%float;
  FLAGS_look_forward_distance := 150%float;
  FLAGS_enable_record_debug := false;
|}.

Definition point (t : float) : TrajectoryPoint :=
  {| relative_time := t; point_other := tt |}.

(** One obstacle per identity, each with one trajectory of the given
    relative times. *)
Definition prediction (stamp : float) (ids : list string)
    (times : list float) : PredictionObstacles := {|
  header := {| timestamp_sec := stamp; header_other := tt |};
  prediction_obstacle :=
    (λ id, {| trajectory := [ {| trajectory_point := point <$> times;
                                 trajectory_other := tt |} ];
              prediction_obstacle_other := id |}) <$> ids;
  prediction_other := tt;
|}.

(** A frame as the setters leave it before Init. *)
Definition frame (px py : float) (routing : bool)
    (p : PredictionObstacles) : Frame := {|
  sequence_num_ := 1%N;
  init_pose_ := {| position := PointENU.mk px py; pose_other := tt |};
  routing_response_ := routing;
  planning_start_point_ := point 0%float;
  prediction_ := p;
  obstacles_ := [];
  reference_line_info_ := [];
  reference_line_ := 0%nat;
  path_decision_ := None;
  smoother_config_ := false;
  trajectory_pb_ := tt;
  _planning_data := tt;
|}.

Definition world (map : option unit) (enable_prediction : bool) (f : Frame)
    : World :=
  {| pnc_map_ := map; FLAGS := flags enable_prediction; this := f; calls := [] |}.

Definition config (converges : bool) : PlanningConfig :=
  {| reference_line_smoother_config := converges; planning_config_other := tt |}.

(** The scenario of one obstacle "99" with one point at 0.5 s in a
    prediction stamped 100.0 s, at pose (10, 5) on the routing. *)
Definition scenario : World :=
  world (Some tt) true
    (frame 10%float 5%float true (prediction 100%float ["99"%string] [0.5%float])).

(** The world once Init has stored the smoother configuration. *)
Definition configured (converges : ReferenceLineSmootherConfig) (w : World)
    : World :=
  with_this (with_smoother_config_ converges (this w)) w.

Definition on_route : RoutingResponse := true.
Definition off_route : RoutingResponse := false.

(** A second stand-in for AddObstacles, which refuses the empty reference
    line 0 and accepts any other, and the collaborators with it. *)
Definition attach_nonempty (items : list string) (l : nat) (st : list string)
    : bool * list string :=
  if decide (l = 0%nat) then (false, st) else (true, st ++ items).

Definition picky : @Collaborators messages :=
  @Build_Collaborators messages
    map_path
    0%nat
    (λ p, p)
    smoother
    obstacles_of
    (λ o, o)
    registry_add
    (λ reg, reg.*2)
    (λ _, [])
    attach_nonempty.

(** The scenario with a routing that does not cover the pose. *)
Definition scenario_off_route : World :=
  world (Some tt) true
    (frame 10%float 5%float false (prediction 100%float ["99"%string] [0.5%float])).

(** The scenario with a prediction set without obstacles. *)
Definition scenario_no_obstacle : World :=
  world (Some tt) true (frame 10%float 5%float true (prediction 100%float [] [])).

End Demo.

(** ** Stand-ins with a heading in the pose

    The same collaborators over messages whose pose carries, besides its
    position, a heading. *)
Module DemoHeading.

Definition messages : Messages := {|
  PoseOther := float;                 (* heading *)
  RoutingResponse := bool;
  HeaderOther := unit;
  TrajectoryPointOther := unit;
  TrajectoryOther := unit;
  PredictionObstacleOther := string;
  PredictionObstaclesOther := unit;
  ADCTrajectory := unit;
  PlanningData := unit;
  ReferenceLineSmootherConfig := bool;
  PlanningConfigOther := unit;
  ReferenceLine := nat;
  InfoState := list string;
  Obstacle := string;
  IndexedObstacles := list (string * string);
  PncMap := unit;
  Path := nat;
|}.

#[local] Existing Instance messages.

Definition obstacles_of (p : @PredictionObstacles messages)
    : list (@Obstacle messages) :=
  prediction_obstacle_other <$> prediction_obstacle p.

Definition collaborators : @Collaborators messages :=
  @Build_Collaborators messages
    Demo.map_path
    0%nat
    (λ p, p)
    Demo.smoother
    obstacles_of
    (λ o, o)
    Demo.registry_add
    (λ reg, reg.*2)
    (λ _, [])
    Demo.attach.

Definition point (t : float) : @TrajectoryPoint messages :=
  {| relative_time := t; point_other := tt |}.

Definition prediction : @PredictionObstacles messages := {|
  header := {| timestamp_sec := 100%float; header_other := tt |};
  prediction_obstacle := [];
  prediction_other := tt;
|}.

(** A frame at position (x, y) with the given heading, on the routing,
    before Init. *)
Definition frame (px py heading : float) : @Frame messages := {|
  sequence_num_ := 1%N;
  init_pose_ := {| position := PointENU.mk px py; pose_other := heading |};
  routing_response_ := true;
  planning_start_point_ := point 0%float;
  prediction_ := prediction;
  obstacles_ := [];
  reference_line_info_ := [];
  reference_line_ := 0%nat;
  path_decision_ := None;
  smoother_config_ := false;
  trajectory_pb_ := tt;
  _planning_data := tt;
|}.

Definition world (px py heading : float) : @World messages :=
  {| pnc_map_ := Some tt; FLAGS := Demo.flags true;
     this := frame px py heading; calls := [] |}.

Definition config : @PlanningConfig messages :=
  {| reference_line_smoother_config := true; planning_config_other := tt |}.

End DemoHeading.

(** * Properties *)

Section Properties.
Context {Msg : Messages} {Ext : Collaborators}.

(** ** The loops of AlignPredictionTime *)

(** An index loop that alters every position visits each element once. *)
Lemma for_loop_alter_from {A : Type} (g : A → A) (done todo : list A) :
  foldl (λ l i, alter g i l) (done ++ todo) (seq (length done) (length todo))
  = done ++ (g <$> todo).
Proof.
  revert done. induction todo as [|a todo IH]; intros done; [reflexivity|].
  cbn [length seq foldl fmap list_fmap].
  rewrite alter_app_r_alt, Nat.sub_diag by reflexivity.
  change (alter g 0 (a :: todo)) with (g a :: todo).
  specialize (IH (done ++ [g a])).
  rewrite length_app, Nat.add_1_r, <- !app_assoc in IH. exact IH.
Qed.

Lemma for_loop_alter {A : Type} (g : A → A) (l : list A) :
  for_loop (length l) (λ i l, alter g i l) l = g <$> l.
Proof. exact (for_loop_alter_from g [] l). Qed.

Lemma align_trajectory_points (T H : float) (tr : Trajectory) :
  trajectory_point (align_trajectory T H tr)
  = align_point T H <$> trajectory_point tr.
Proof. apply for_loop_alter. Qed.

Lemma align_obstacle_trajectories (T H : float) (ob : PredictionObstacle) :
  trajectory (align_obstacle T H ob) = align_trajectory T H <$> trajectory ob.
Proof. apply for_loop_alter. Qed.

Lemma align_prediction_obstacles (H : float) (p : PredictionObstacles) :
  prediction_obstacle (align_prediction H p)
  = align_obstacle (timestamp_sec (header p)) H <$> prediction_obstacle p.
Proof. apply for_loop_alter. Qed.

Lemma align_prediction_header (H : float) (p : PredictionObstacles) :
  header (align_prediction H p) = header p.
Proof. reflexivity. Qed.

Lemma point_at_align (H : float) (p : PredictionObstacles) (i j k : nat) :
  point_at (align_prediction H p) i j k
  = align_point (timestamp_sec (header p)) H <$> point_at p i j k.
Proof.
  unfold point_at. rewrite align_prediction_obstacles, list_lookup_fmap.
  destruct (prediction_obstacle p !! i) as [ob|]; [|reflexivity].
  cbn [fmap option_fmap option_map mbind option_bind].
  rewrite align_obstacle_trajectories, list_lookup_fmap.
  destruct (trajectory ob !! j) as [tr|]; [|reflexivity].
  cbn [fmap option_fmap option_map mbind option_bind].
  rewrite align_trajectory_points, list_lookup_fmap. reflexivity.
Qed.

Lemma AlignPredictionTime_run (H : float) (w : World) :
  AlignPredictionTime H w
  = Some (tt, with_this (with_prediction_ (align_prediction H (prediction_ (this w)))
                           (this w)) w).
Proof. reflexivity. Qed.


(** ** Running the member functions *)

(** Unfolds the monad's plumbing and the world updates it performs. *)
Ltac run_M :=
  cbv beta iota delta
    [mbind M_bind mret M_ret log modify_this get_this get_world undefined];
  cbn [fst snd this calls pnc_map_ FLAGS with_this with_calls with_pnc_map_].

Lemma with_obstacles_same (f : Frame) : with_obstacles_ (obstacles_ f) f = f.
Proof. destruct f; reflexivity. Qed.

Lemma add_to_obstacles__run (o : Obstacle) (w : World) :
  add_to_obstacles_ o w
  = Some (tt,
      with_this (with_obstacles_ (Add (Id o) o (obstacles_ (this w))).2 (this w))
        (with_calls (calls w ++ [CallAdd (Id o)]) w)).
Proof. reflexivity. Qed.

Lemma for_each_cons {A : Type} (a : A) (l : list A) (body : A → M unit)
    (w : World) :
  for_each (a :: l) body w
  = match body a w with
    | Some (_, w') => for_each l body w'
    | None => None
    end.
Proof. reflexivity. Qed.

Lemma for_each_add_run (obstacles : list Obstacle) (w : World) :
  for_each obstacles add_to_obstacles_ w
  = Some (tt,
      with_calls (calls w ++ ((λ o, CallAdd (Id o)) <$> obstacles))
        (with_this (with_obstacles_ (ingest obstacles (obstacles_ (this w)))
                      (this w)) w)).
Proof.
  revert w. induction obstacles as [|o obstacles IH]; intros [m fl f cs].
  - cbn [for_each fmap list_fmap ingest foldl]. run_M.
    rewrite app_nil_r, with_obstacles_same. reflexivity.
  - rewrite for_each_cons, add_to_obstacles__run, IH. run_M.
    rewrite <- app_assoc. reflexivity.
Qed.

Lemma CreatePredictionObstacles_run (prediction : PredictionObstacles)
    (w : World) :
  CreatePredictionObstacles prediction w
  = Some (tt,
      with_calls
        (calls w ++ CallCreateObstacles ::
           ((λ o, CallAdd (Id o)) <$> CreateObstacles prediction))
        (with_this
           (with_obstacles_
              (ingest (CreateObstacles prediction) (obstacles_ (this w)))
              (this w)) w)).
Proof.
  unfold CreatePredictionObstacles. run_M.
  rewrite for_each_add_run. run_M. rewrite <- app_assoc. reflexivity.
Qed.

Lemma emplace_then_write_back {A : Type} (lines : list A) (d out : A) :
  <[length lines := out]> (lines ++ [d]) = lines ++ [out].
Proof.
  rewrite insert_app_r_alt, Nat.sub_diag by reflexivity. reflexivity.
Qed.

Lemma CreateReferenceLineFromRouting_run (position : PointENU.t)
    (routing : RoutingResponse) (lines : list ReferenceLine) (w : World)
    (m : PncMap) :
  pnc_map_ w = Some m →
  CreateReferenceLineFromRouting position routing lines w
  = match CreatePathFromRouting m routing position
            (FLAGS_look_backward_distance (FLAGS w))
            (FLAGS_look_forward_distance (FLAGS w)) with
    | None =>
        Some ((false, lines),
              with_calls (calls w ++ [CallCreatePathFromRouting position]) w)
    | Some path =>
        let r := smooth (smoother_config_ (this w)) (ReferenceLine_of_path path) in
        Some ((r.1, lines ++ [r.2]),
              with_calls
                (calls w ++ [CallCreatePathFromRouting position; CallSmooth]) w)
    end.
Proof.
  intros Hmap. unfold CreateReferenceLineFromRouting. run_M. rewrite Hmap.
  run_M. destruct (CreatePathFromRouting _ _ _ _ _) as [path|]; [|reflexivity].
  run_M. destruct (smooth _ _) as [[] out]; run_M;
    rewrite emplace_then_write_back, <- app_assoc; reflexivity.
Qed.

Lemma InitReferenceLineInfo_single (l : ReferenceLine) (w : World) :
  InitReferenceLineInfo [l] w
  = Some ((candidate (Items (obstacles_ (this w))) l).1,
      with_calls (calls w ++ [CallAddObstacles 0])
        (with_this
           (with_reference_line_info_
              [(candidate (Items (obstacles_ (this w))) l).2] (this w)) w)).
Proof.
  unfold InitReferenceLineInfo, candidate. cbn [for_each]. run_M.
  unfold emplace_back_info. run_M. cbn.
  unfold add_obstacles_at. run_M. cbn.
  destruct (AddObstacles _ _ _) as [[] st]; reflexivity.
Qed.

Lemma Init_run (config : PlanningConfig) (w : World) (m : PncMap)
    (path : Path) (l : ReferenceLine) :
  pnc_map_ w = Some m →
  is_nan (PointENU.x (position (init_pose_ (this w))))
    || is_nan (PointENU.y (position (init_pose_ (this w)))) = false →
  CreatePathFromRouting m (routing_response_ (this w))
    (position (init_pose_ (this w)))
    (FLAGS_look_backward_distance (FLAGS w))
    (FLAGS_look_forward_distance (FLAGS w)) = Some path →
  smooth (reference_line_smoother_config config) (ReferenceLine_of_path path)
    = (true, l) →
  Init config w = Some (true, after_Init config l w).
Proof.
  intros Hmap Hpose Hpath Hsmooth. unfold Init. run_M.
  rewrite Hmap, Hpose.
  run_M.
  erewrite CreateReferenceLineFromRouting_run by exact Hmap.
  cbn. rewrite Hpath. cbn. rewrite Hsmooth. cbn.
  unfold after_Init, registry_after_Init, calls_of_Init.
  destruct (FLAGS_enable_prediction (FLAGS w)).
  - rewrite CreatePredictionObstacles_run, InitReferenceLineInfo_single.
    cbn. unfold with_calls, with_this. cbn. rewrite <- !app_assoc. reflexivity.
  - rewrite InitReferenceLineInfo_single.
    cbn. unfold with_calls, with_this. cbn. rewrite <- !app_assoc.
    destruct w as [? ? [] ?]. reflexivity.
Qed.

(** Init runs the attachment step and goes on whatever it answers. *)
Lemma Init_from_attach (config : PlanningConfig) (w : World) (m : PncMap)
    (path : Path) (l : ReferenceLine) :
  pnc_map_ w = Some m →
  is_nan (PointENU.x (position (init_pose_ (this w))))
    || is_nan (PointENU.y (position (init_pose_ (this w)))) = false →
  CreatePathFromRouting m (routing_response_ (this w))
    (position (init_pose_ (this w)))
    (FLAGS_look_backward_distance (FLAGS w))
    (FLAGS_look_forward_distance (FLAGS w)) = Some path →
  smooth (reference_line_smoother_config config) (ReferenceLine_of_path path)
    = (true, l) →
  Init config w
  = match InitReferenceLineInfo [l] (before_attach config w) with
    | Some (_, w1) => Some (true, finish_Init l w1)
    | None => None
    end.
Proof.
  intros Hmap Hpose Hpath Hsmooth.
  rewrite (Init_run config w m path l Hmap Hpose Hpath Hsmooth).
  rewrite InitReferenceLineInfo_single.
  unfold after_Init, before_attach, finish_Init, calls_of_Init.
  cbn. unfold with_calls, with_this. cbn. rewrite <- !app_assoc. reflexivity.
Qed.

(** ** The attachment loop in general *)

Lemma add_obstacles_from_run (todo done : list ReferenceLineInfo) (w : World) :
  reference_line_info_ (this w) = done ++ todo →
  ∃ cs,
    add_obstacles_from (seq (length done) (length todo)) w
    = Some ((attach_all (Items (obstacles_ (this w))) todo).1,
        with_calls (calls w ++ cs)
          (with_this
             (with_reference_line_info_
                (done ++ (attach_all (Items (obstacles_ (this w))) todo).2)
                (this w)) w)).
Proof.
  revert done w. induction todo as [|info todo IH]; intros done w Hinfos.
  - exists []. cbn. rewrite !app_nil_r. rewrite app_nil_r in Hinfos.
    destruct w as [? ? [] ?]. cbn in *. subst. reflexivity.
  - cbn [length seq add_obstacles_from attach_all].
    unfold add_obstacles_at. run_M.
    rewrite Hinfos, list_lookup_middle by reflexivity.
    run_M.
    destruct (AddObstacles _ _ _) as [ok st] eqn:Hadd. run_M. cbn [fst snd].
    rewrite Hinfos.
    rewrite insert_app_r_alt, Nat.sub_diag by reflexivity.
    cbn [insert list_insert].
    set (info' := {| rli_reference_line := rli_reference_line info;
                     rli_state := st |}).
    destruct ok.
    + set (w1 := with_this _ _).
      destruct (IH (done ++ [info']) w1) as [cs Hrun].
      { subst w1. destruct w as [? ? [] ?]. cbn. rewrite <- app_assoc.
        reflexivity. }
      rewrite length_app, Nat.add_1_r in Hrun.
      exists (CallAddObstacles (length done) :: cs). rewrite Hrun.
      subst w1. destruct w as [? ? [] ?]. cbn.
      unfold with_calls, with_this. cbn. rewrite <- !app_assoc. reflexivity.
    + exists [CallAddObstacles (length done)].
      destruct w as [? ? [] ?]. reflexivity.
Qed.

Lemma for_each_emplace_back_run (lines : list ReferenceLine) (w : World) :
  for_each lines emplace_back_info w
  = Some (tt,
      with_this
        (with_reference_line_info_
           (reference_line_info_ (this w) ++ fresh_infos lines) (this w)) w).
Proof.
  revert w. induction lines as [|l lines IH]; intros w.
  - cbn. unfold fresh_infos. cbn. rewrite app_nil_r.
    destruct w as [? ? [] ?]. reflexivity.
  - rewrite for_each_cons. unfold emplace_back_info at 1. run_M.
    rewrite IH. destruct w as [? ? [] ?]. cbn.
    unfold with_this. cbn. rewrite <- app_assoc. reflexivity.
Qed.

(** InitReferenceLineInfo on any number of reference lines: the list is
    built anew from them and the flag tells whether every attachment that
    was tried succeeded. *)
Lemma InitReferenceLineInfo_run (lines : list ReferenceLine) (w : World) :
  ∃ cs,
    InitReferenceLineInfo lines w
    = Some ((attach_all (Items (obstacles_ (this w))) (fresh_infos lines)).1,
        with_calls (calls w ++ cs)
          (with_this
             (with_reference_line_info_
                (attach_all (Items (obstacles_ (this w))) (fresh_infos lines)).2
                (this w)) w)).
Proof.
  unfold InitReferenceLineInfo. run_M.
  rewrite for_each_emplace_back_run. run_M.
  set (w1 := with_this _ _).
  destruct (add_obstacles_from_run (fresh_infos lines) [] w1) as [cs Hrun].
  { subst w1. destruct w as [? ? [] ?]. reflexivity. }
  exists cs. subst w1. destruct w as [? ? [] ?]. cbn in *. rewrite Hrun.
  reflexivity.
Qed.

Lemma attach_all_flag (items : list Obstacle) (infos : list ReferenceLineInfo) :
  (attach_all items infos).1
  = forallb (λ info,
      (AddObstacles items (rli_reference_line info) (rli_state info)).1) infos.
Proof.
  induction infos as [|info infos IH]; [reflexivity|]. cbn.
  destruct (AddObstacles _ _ _) as [[] st]; cbn; [exact IH|reflexivity].
Qed.

Lemma attach_all_length (items : list Obstacle)
    (infos : list ReferenceLineInfo) :
  length (attach_all items infos).2 = length infos.
Proof.
  induction infos as [|info infos IH]; [reflexivity|]. cbn.
  destruct (AddObstacles _ _ _) as [[] st]; cbn; [rewrite IH|]; reflexivity.
Qed.

(** ** Init *)

Lemma is_finite_not_nan (a : float) : is_finite a = true → is_nan a = false.
Proof.
  unfold is_finite. destruct (is_nan a); [discriminate|reflexivity].
Qed.

(** C4: with the process-wide map unset, Init returns false; it calls no
    collaborator and leaves the frame as it was, so a candidate list that
    was empty stays empty and no reference line is produced. *)
Theorem Init_without_map (config : PlanningConfig) (w : World) :
  pnc_map_ w = None →
  reference_line_info (this w) = [] →
  ∃ w', Init config w = Some (false, w') ∧
        reference_line_info (this w') = [] ∧
        calls w' = calls w ∧ this w' = this w.
Proof.
  intros Hmap Hempty. exists w. unfold Init. run_M. rewrite Hmap.
  repeat split; [exact Hempty].
Qed.

(** C5 (as amended): when the x or the y coordinate of the pose's position
    is not a number, Init returns false without having called the map (or
    any other) collaborator: the log of calls is as it was before. *)
Theorem Init_nan_pose (config : PlanningConfig) (w : World) :
  is_nan (PointENU.x (position (init_pose_ (this w))))
    || is_nan (PointENU.y (position (init_pose_ (this w)))) = true →
  ∃ w', Init config w = Some (false, w') ∧ calls w' = calls w ∧
        this w' = this w.
Proof.
  intros Hnan. exists w. unfold Init. run_M.
  destruct (pnc_map_ w); [rewrite Hnan|]; repeat split.
Qed.

(** C3: with the map set, finite pose coordinates, and a map and a smoother
    that succeed, Init returns true, the candidate list is not empty
    afterwards, and the primary reference line is the reference line of the
    first candidate (the line the smoother produced). *)
Theorem Init_success (config : PlanningConfig) (w : World) (m : PncMap)
    (path : Path) (l : ReferenceLine) :
  pnc_map_ w = Some m →
  is_finite (PointENU.x (position (init_pose_ (this w)))) = true →
  is_finite (PointENU.y (position (init_pose_ (this w)))) = true →
  CreatePathFromRouting m (routing_response_ (this w))
    (position (init_pose_ (this w)))
    (FLAGS_look_backward_distance (FLAGS w))
    (FLAGS_look_forward_distance (FLAGS w)) = Some path →
  smooth (reference_line_smoother_config config) (ReferenceLine_of_path path)
    = (true, l) →
  ∃ w' first,
    Init config w = Some (true, w') ∧
    reference_line_info (this w') ≠ [] ∧
    reference_line_info (this w') !! 0%nat = Some first ∧
    reference_line (this w') = rli_reference_line first ∧
    reference_line (this w') = l.
Proof.
  intros Hmap Hx Hy Hpath Hsmooth.
  exists (after_Init config l w),
         (candidate (Items (registry_after_Init w)) l).2.
  split.
  - apply (Init_run config w m path l Hmap); [|exact Hpath|exact Hsmooth].
    rewrite (is_finite_not_nan _ Hx), (is_finite_not_nan _ Hy). reflexivity.
  - repeat split. discriminate.
Qed.

(** C1 (the code departs from it): when the attachment step that Init runs,
    InitReferenceLineInfo on the line the builder produced, returns false,
    Init still returns true and goes on with the candidates as that step
    left them. *)
Theorem Init_succeeds_when_attachment_fails (config : PlanningConfig)
    (w w1 : World) (m : PncMap) (path : Path) (l : ReferenceLine) :
  pnc_map_ w = Some m →
  is_nan (PointENU.x (position (init_pose_ (this w))))
    || is_nan (PointENU.y (position (init_pose_ (this w)))) = false →
  CreatePathFromRouting m (routing_response_ (this w))
    (position (init_pose_ (this w)))
    (FLAGS_look_backward_distance (FLAGS w))
    (FLAGS_look_forward_distance (FLAGS w)) = Some path →
  smooth (reference_line_smoother_config config) (ReferenceLine_of_path path)
    = (true, l) →
  InitReferenceLineInfo [l] (before_attach config w) = Some (false, w1) →
  Init config w = Some (true, finish_Init l w1).
Proof.
  intros Hmap Hpose Hpath Hsmooth Hattach.
  rewrite (Init_from_attach config w m path l Hmap Hpose Hpath Hsmooth).
  rewrite Hattach. reflexivity.
Qed.

(** C8 (as amended): an Init whose builder succeeds builds the candidate
    list anew, one candidate made from this call's reference line whatever
    the list held before; the obstacle registry is not started anew:
    with prediction enabled the obstacles of the current prediction set are
    offered to the registry as it stands, otherwise it is left as it is. *)
Theorem Init_rebuilds_candidates_not_registry (config : PlanningConfig)
    (w : World) (m : PncMap) (path : Path) (l : ReferenceLine) :
  pnc_map_ w = Some m →
  is_nan (PointENU.x (position (init_pose_ (this w))))
    || is_nan (PointENU.y (position (init_pose_ (this w)))) = false →
  CreatePathFromRouting m (routing_response_ (this w))
    (position (init_pose_ (this w)))
    (FLAGS_look_backward_distance (FLAGS w))
    (FLAGS_look_forward_distance (FLAGS w)) = Some path →
  smooth (reference_line_smoother_config config) (ReferenceLine_of_path path)
    = (true, l) →
  ∃ w',
    Init config w = Some (true, w') ∧
    reference_line_info (this w')
      = [(candidate (Items (GetObstacles (this w'))) l).2] ∧
    GetObstacles (this w')
      = if FLAGS_enable_prediction (FLAGS w)
        then ingest (CreateObstacles (prediction_ (this w)))
                    (GetObstacles (this w))
        else GetObstacles (this w).
Proof.
  intros Hmap Hpose Hpath Hsmooth. exists (after_Init config l w).
  split; [exact (Init_run config w m path l Hmap Hpose Hpath Hsmooth)|].
  split; reflexivity.
Qed.

(** ** The obstacle registry *)

(** C6 (as amended): building the registry from a prediction set cannot
    fail: CreatePredictionObstacles always returns, having offered every
    obstacle made from the prediction set to Add under its identity, in
    order, and having dropped what Add answered; only the registry and the
    log of calls change. *)
Theorem CreatePredictionObstacles_never_fails (prediction : PredictionObstacles)
    (w : World) :
  ∃ w',
    CreatePredictionObstacles prediction w = Some (tt, w') ∧
    GetObstacles (this w')
      = ingest (CreateObstacles prediction) (GetObstacles (this w)) ∧
    this w' = with_obstacles_ (GetObstacles (this w')) (this w) ∧
    pnc_map_ w' = pnc_map_ w ∧ FLAGS w' = FLAGS w.
Proof.
  eexists. split; [apply CreatePredictionObstacles_run|].
  repeat split.
Qed.

(** ** The reference-line builder *)

(** C9 (as amended): with the map set, CreateReferenceLineFromRouting
    changes nothing of the frame or the statics.  When the map finds no
    path it returns false and the vector is as it was; otherwise the vector
    has gained exactly one line at its end, the one the smoother wrote, and
    the flag is the smoother's: true on success, false with the extra line
    left in the vector when smoothing fails. *)
Theorem CreateReferenceLineFromRouting_effect (position : PointENU.t)
    (routing : RoutingResponse) (lines : list ReferenceLine) (w : World)
    (m : PncMap) :
  pnc_map_ w = Some m →
  ∃ ok lines' w',
    CreateReferenceLineFromRouting position routing lines w
      = Some ((ok, lines'), w') ∧
    this w' = this w ∧ pnc_map_ w' = pnc_map_ w ∧ FLAGS w' = FLAGS w ∧
    match CreatePathFromRouting m routing position
            (FLAGS_look_backward_distance (FLAGS w))
            (FLAGS_look_forward_distance (FLAGS w)) with
    | None => ok = false ∧ lines' = lines
    | Some path =>
        let r := smooth (smoother_config_ (this w)) (ReferenceLine_of_path path) in
        ok = r.1 ∧ lines' = lines ++ [r.2]
    end.
Proof.
  intros Hmap.
  rewrite (CreateReferenceLineFromRouting_run position routing lines w m Hmap).
  destruct (CreatePathFromRouting _ _ _ _ _) as [path|]; cbn zeta;
    do 3 eexists; (split; [reflexivity|]); repeat split.
Qed.

(** ** AlignPredictionTime *)

(** C2: after one call of AlignPredictionTime with header time [H], every
    point of every trajectory of every obstacle of the prediction set has
    the relative time [T + R - H], computed on doubles from left to right,
    where [T] is the time stamp of the prediction set's header and [R] the
    point's relative time before the call. *)
Theorem AlignPredictionTime_relative_time (H : float) (w : World)
    (i j k : nat) (pt : TrajectoryPoint) :
  point_at (prediction_ (this w)) i j k = Some pt →
  ∃ w' pt',
    AlignPredictionTime H w = Some (tt, w') ∧
    point_at (prediction_ (this w')) i j k = Some pt' ∧
    relative_time pt'
      = PrimFloat.sub
          (PrimFloat.add (timestamp_sec (header (prediction_ (this w))))
                         (relative_time pt)) H.
Proof.
  intros Hpt. eexists _, _. split; [apply AlignPredictionTime_run|].
  cbn [this with_this prediction_ with_prediction_].
  rewrite point_at_align, Hpt. split; reflexivity.
Qed.

(** C7 (as amended): a second call with the same [H] applies the shift once
    more to the value the first call left: a point that held [R] holds
    [T + R - H] after the first call and [T + (T + R - H) - H] after the
    second, [T] being the header time stamp, which the call does not
    touch. *)
Theorem AlignPredictionTime_twice (H : float) (w : World) (i j k : nat)
    (pt : TrajectoryPoint) :
  point_at (prediction_ (this w)) i j k = Some pt →
  ∃ w1 w2 pt1 pt2,
    AlignPredictionTime H w = Some (tt, w1) ∧
    AlignPredictionTime H w1 = Some (tt, w2) ∧
    point_at (prediction_ (this w1)) i j k = Some pt1 ∧
    point_at (prediction_ (this w2)) i j k = Some pt2 ∧
    timestamp_sec (header (prediction_ (this w1)))
      = timestamp_sec (header (prediction_ (this w))) ∧
    relative_time pt1
      = PrimFloat.sub
          (PrimFloat.add (timestamp_sec (header (prediction_ (this w))))
                         (relative_time pt)) H ∧
    relative_time pt2
      = PrimFloat.sub
          (PrimFloat.add (timestamp_sec (header (prediction_ (this w))))
                         (relative_time pt1)) H.
Proof.
  intros Hpt. eexists _, _, _, _.
  split; [apply AlignPredictionTime_run|].
  split; [apply AlignPredictionTime_run|].
  cbn [this with_this prediction_ with_prediction_].
  rewrite !point_at_align, Hpt. repeat split.
Qed.

Lemma shape_align (H : float) (p : PredictionObstacles) :
  shape (align_prediction H p) = shape p.
Proof.
  unfold shape. rewrite align_prediction_obstacles, <- list_fmap_compose.
  apply list_fmap_ext. intros _ ob _. unfold compose at 1.
  rewrite align_obstacle_trajectories, <- list_fmap_compose.
  apply list_fmap_ext. intros _ tr _. unfold compose.
  rewrite align_trajectory_points, length_fmap. reflexivity.
Qed.

Lemma Forall2_fmap_self {A : Type} (Q : A → A → Prop) (g : A → A)
    (l : list A) :
  (∀ a, Q a (g a)) → Forall2 Q l (g <$> l).
Proof. intros HQ. induction l; constructor; auto. Qed.

Lemma same_prediction_align (H : float) (p : PredictionObstacles) :
  same_prediction p (align_prediction H p).
Proof.
  split; [reflexivity|]. split; [reflexivity|].
  rewrite align_prediction_obstacles. apply Forall2_fmap_self. intros ob.
  split; [reflexivity|].
  rewrite align_obstacle_trajectories. apply Forall2_fmap_self. intros tr.
  split; [reflexivity|].
  rewrite align_trajectory_points. apply Forall2_fmap_self. intros pt.
  reflexivity.
Qed.

(** C10: AlignPredictionTime changes the relative times of the points and
    nothing else: the prediction set keeps its numbers of obstacles, of
    trajectories per obstacle and of points per trajectory, its header and
    every field of every obstacle, trajectory and point other than
    relative_time; no other member of the frame, no static and no
    collaborator is touched. *)
Theorem AlignPredictionTime_only_relative_time (H : float) (w : World) :
  ∃ w',
    AlignPredictionTime H w = Some (tt, w') ∧
    w' = with_this (with_prediction_ (prediction_ (this w')) (this w)) w ∧
    shape (prediction_ (this w')) = shape (prediction_ (this w)) ∧
    same_prediction (prediction_ (this w)) (prediction_ (this w')).
Proof.
  eexists. split; [apply AlignPredictionTime_run|].
  cbn [this with_this prediction_ with_prediction_].
  split; [reflexivity|]. split; [apply shape_align|apply same_prediction_align].
Qed.

(** ** Init on every input *)

(** What Init returns and the world it leaves, case by case. *)
Lemma Init_cases (config : PlanningConfig) (w : World) :
  Init config w
  = Some
      match pnc_map_ w with
      | None => (false, w)
      | Some m =>
          if is_nan (PointENU.x (position (init_pose_ (this w))))
             || is_nan (PointENU.y (position (init_pose_ (this w))))
          then (false, w)
          else
            match CreatePathFromRouting m (routing_response_ (this w))
                    (position (init_pose_ (this w)))
                    (FLAGS_look_backward_distance (FLAGS w))
                    (FLAGS_look_forward_distance (FLAGS w)) with
            | None => (false, after_failed_builder config false w)
            | Some path =>
                let r := smooth (reference_line_smoother_config config)
                           (ReferenceLine_of_path path) in
                if r.1 then (true, after_Init config r.2 w)
                else (false, after_failed_builder config true w)
            end
      end.
Proof.
  destruct (pnc_map_ w) as [m|] eqn:Hmap;
    [|unfold Init; run_M; rewrite Hmap; reflexivity].
  destruct (is_nan _ || is_nan _) eqn:Hpose;
    [unfold Init; run_M; rewrite Hmap, Hpose; reflexivity|].
  destruct (CreatePathFromRouting _ _ _ _ _) as [path|] eqn:Hpath.
  - destruct (smooth _ _) as [[] l] eqn:Hsmooth; cbn [fst snd].
    + rewrite (Init_run config w m path l Hmap Hpose Hpath Hsmooth).
      reflexivity.
    + unfold Init. run_M. rewrite Hmap, Hpose. run_M.
      erewrite CreateReferenceLineFromRouting_run by exact Hmap.
      cbn. rewrite Hpath. cbn. rewrite Hsmooth. cbn.
      reflexivity.
  - unfold Init. run_M. rewrite Hmap, Hpose. run_M.
    erewrite CreateReferenceLineFromRouting_run by exact Hmap.
    cbn. rewrite Hpath. cbn. reflexivity.
Qed.

(** X1: Init always returns, never running into a null map or an empty
    vector, and it returns true exactly when the map is set, neither x nor
    y of the pose is NaN, the map finds a path and the smoother succeeds on
    it; nothing else (the prediction set, the registry, the attachment of
    obstacles) has a say. *)
Theorem Init_returns_true_iff (config : PlanningConfig) (w : World) :
  ∃ ok w',
    Init config w = Some (ok, w') ∧
    (ok = true ↔
     ∃ m path l,
       pnc_map_ w = Some m ∧
       is_nan (PointENU.x (position (init_pose_ (this w))))
         || is_nan (PointENU.y (position (init_pose_ (this w)))) = false ∧
       CreatePathFromRouting m (routing_response_ (this w))
         (position (init_pose_ (this w)))
         (FLAGS_look_backward_distance (FLAGS w))
         (FLAGS_look_forward_distance (FLAGS w)) = Some path ∧
       smooth (reference_line_smoother_config config)
         (ReferenceLine_of_path path) = (true, l)).
Proof.
  rewrite Init_cases.
  destruct (pnc_map_ w) as [m|] eqn:Hmap.
  2:{ eexists _, _. split; [reflexivity|]. split; [discriminate|].
      intros (? & ? & ? & ? & _). discriminate. }
  destruct (is_nan _ || is_nan _) eqn:Hpose.
  { eexists _, _. split; [reflexivity|]. split; [discriminate|].
    intros (? & ? & ? & _ & ? & _). discriminate. }
  destruct (CreatePathFromRouting _ _ _ _ _) as [path|] eqn:Hpath.
  2:{ eexists _, _. split; [reflexivity|]. split; [discriminate|].
      intros (m' & ? & ? & Hm & _ & Hp & _).
      injection Hm as <-. rewrite Hpath in Hp. discriminate. }
  destruct (smooth _ _) as [[] l] eqn:Hsmooth; cbn [fst snd];
    eexists _, _; (split; [reflexivity|]); split.
  - intros _. exists m, path, l. auto.
  - reflexivity.
  - discriminate.
  - intros (m' & path' & l' & Hm & _ & Hp & Hs).
    injection Hm as <-. rewrite Hpath in Hp. injection Hp as <-.
    rewrite Hsmooth in Hs. discriminate.
Qed.

(** X2: an Init that returns false has derived nothing: the candidate
    list, the obstacle registry, the primary reference line, the decision
    handle and the prediction set are as they were, and so are the
    statics. *)
Theorem Init_failure_keeps_frame (config : PlanningConfig) (w w' : World) :
  Init config w = Some (false, w') →
  reference_line_info (this w') = reference_line_info (this w) ∧
  GetObstacles (this w') = GetObstacles (this w) ∧
  reference_line (this w') = reference_line (this w) ∧
  path_decision (this w') = path_decision (this w) ∧
  prediction_ (this w') = prediction_ (this w) ∧
  pnc_map_ w' = pnc_map_ w ∧ FLAGS w' = FLAGS w.
Proof.
  rewrite Init_cases.
  destruct (pnc_map_ w) as [m|] eqn:Hmap;
    [|intros [= <-]; repeat split; exact Hmap].
  destruct (is_nan _ || is_nan _);
    [intros [= <-]; repeat split; exact Hmap|].
  destruct (CreatePathFromRouting _ _ _ _ _) as [path|];
    [|intros [= <-]; repeat split; exact Hmap].
  destruct (smooth _ _) as [[] l]; cbn [fst snd];
    [discriminate|intros [= <-]; repeat split; exact Hmap].
Qed.

(** X3: when the map finds no path, Init returns false having called the
    map once and nothing else: the smoother is not started; the frame only
    has the smoother configuration stored. *)
Theorem Init_map_path_failure (config : PlanningConfig) (w : World)
    (m : PncMap) :
  pnc_map_ w = Some m →
  is_nan (PointENU.x (position (init_pose_ (this w))))
    || is_nan (PointENU.y (position (init_pose_ (this w)))) = false →
  CreatePathFromRouting m (routing_response_ (this w))
    (position (init_pose_ (this w)))
    (FLAGS_look_backward_distance (FLAGS w))
    (FLAGS_look_forward_distance (FLAGS w)) = None →
  ∃ w',
    Init config w = Some (false, w') ∧
    calls w'
      = calls w ++ [CallCreatePathFromRouting (position (init_pose_ (this w)))] ∧
    this w'
      = with_smoother_config_ (reference_line_smoother_config config) (this w).
Proof.
  intros Hmap Hpose Hpath. rewrite Init_cases, Hmap, Hpose, Hpath.
  eexists. repeat split.
Qed.

(** X4: when the map finds a path and the smoother fails on it, Init
    returns false after exactly those two calls: no obstacle is made from
    the prediction set, offered to the registry or attached, also with
    prediction enabled, and the line the smoother left is dropped. *)
Theorem Init_smoothing_failure (config : PlanningConfig) (w : World)
    (m : PncMap) (path : Path) (out : ReferenceLine) :
  pnc_map_ w = Some m →
  is_nan (PointENU.x (position (init_pose_ (this w))))
    || is_nan (PointENU.y (position (init_pose_ (this w)))) = false →
  CreatePathFromRouting m (routing_response_ (this w))
    (position (init_pose_ (this w)))
    (FLAGS_look_backward_distance (FLAGS w))
    (FLAGS_look_forward_distance (FLAGS w)) = Some path →
  smooth (reference_line_smoother_config config) (ReferenceLine_of_path path)
    = (false, out) →
  ∃ w',
    Init config w = Some (false, w') ∧
    calls w'
      = calls w ++ [CallCreatePathFromRouting (position (init_pose_ (this w)));
                    CallSmooth] ∧
    this w'
      = with_smoother_config_ (reference_line_smoother_config config) (this w).
Proof.
  intros Hmap Hpose Hpath Hsmooth.
  rewrite Init_cases, Hmap, Hpose, Hpath, Hsmooth.
  eexists. repeat split.
Qed.

(** X5: a successful Init calls the collaborators in this order and number:
    the map once, the smoother once, then, only with prediction enabled,
    CreateObstacles once and Add once per obstacle made, in their order and
    under their own identity, and last AddObstacles once, on candidate 0. *)
Theorem Init_success_calls (config : PlanningConfig) (w : World) (m : PncMap)
    (path : Path) (l : ReferenceLine) :
  pnc_map_ w = Some m →
  is_nan (PointENU.x (position (init_pose_ (this w))))
    || is_nan (PointENU.y (position (init_pose_ (this w)))) = false →
  CreatePathFromRouting m (routing_response_ (this w))
    (position (init_pose_ (this w)))
    (FLAGS_look_backward_distance (FLAGS w))
    (FLAGS_look_forward_distance (FLAGS w)) = Some path →
  smooth (reference_line_smoother_config config) (ReferenceLine_of_path path)
    = (true, l) →
  ∃ w',
    Init config w = Some (true, w') ∧
    calls w'
      = calls w ++
        [CallCreatePathFromRouting (position (init_pose_ (this w))); CallSmooth] ++
        (if FLAGS_enable_prediction (FLAGS w)
         then CallCreateObstacles ::
              ((λ o, CallAdd (Id o)) <$> CreateObstacles (prediction_ (this w)))
         else []) ++
        [CallAddObstacles 0].
Proof.
  intros Hmap Hpose Hpath Hsmooth. exists (after_Init config l w).
  split; [exact (Init_run config w m path l Hmap Hpose Hpath Hsmooth)|].
  reflexivity.
Qed.

(** An Init that returned true went through the builder. *)
Lemma Init_true_inv (config : PlanningConfig) (w w' : World) :
  Init config w = Some (true, w') →
  ∃ m path l,
    pnc_map_ w = Some m ∧
    is_nan (PointENU.x (position (init_pose_ (this w))))
      || is_nan (PointENU.y (position (init_pose_ (this w)))) = false ∧
    CreatePathFromRouting m (routing_response_ (this w))
      (position (init_pose_ (this w)))
      (FLAGS_look_backward_distance (FLAGS w))
      (FLAGS_look_forward_distance (FLAGS w)) = Some path ∧
    smooth (reference_line_smoother_config config)
      (ReferenceLine_of_path path) = (true, l) ∧
    w' = after_Init config l w.
Proof.
  rewrite Init_cases.
  destruct (pnc_map_ w) as [m|] eqn:Hmap; [|discriminate].
  destruct (is_nan _ || is_nan _) eqn:Hpose; [discriminate|].
  destruct (CreatePathFromRouting _ _ _ _ _) as [path|] eqn:Hpath;
    [|discriminate].
  destruct (smooth _ _) as [[] l] eqn:Hsmooth; cbn [fst snd];
    [|discriminate].
  intros [= <-]. exists m, path, l. repeat split; assumption.
Qed.

(** X6: whenever Init returns true the frame holds exactly one candidate,
    the decision handle [path_decision()] is set and points into that
    candidate, and the primary reference line is that candidate's line. *)
Theorem Init_true_postcondition (config : PlanningConfig) (w w' : World) :
  Init config w = Some (true, w') →
  ∃ first,
    reference_line_info (this w') = [first] ∧
    path_decision (this w') = Some (rli_state first) ∧
    reference_line (this w') = rli_reference_line first.
Proof.
  intros Hinit.
  destruct (Init_true_inv config w w' Hinit) as (m & path & l & _ & _ & _ & _ & ->).
  eexists. repeat split.
Qed.

(** X7: calling Init again after it returned true, with the same
    configuration and the collaborators answering as before, returns true
    again with the same primary reference line and again one candidate:
    Init changes nothing its own tests depend on.  The registry is offered
    the prediction set's obstacles a second time. *)
Theorem Init_again (config : PlanningConfig) (w w1 : World) :
  Init config w = Some (true, w1) →
  ∃ w2,
    Init config w1 = Some (true, w2) ∧
    reference_line (this w2) = reference_line (this w1) ∧
    length (reference_line_info (this w2)) = 1%nat ∧
    GetObstacles (this w2)
      = if FLAGS_enable_prediction (FLAGS w1)
        then ingest (CreateObstacles (prediction_ (this w1)))
                    (GetObstacles (this w1))
        else GetObstacles (this w1).
Proof.
  intros Hinit.
  destruct (Init_true_inv config w w1 Hinit)
    as (m & path & l & Hmap & Hpose & Hpath & Hsmooth & ->).
  exists (after_Init config l (after_Init config l w)). split.
  - apply (Init_run config _ m path l); assumption.
  - repeat split.
Qed.

(** X8: re-basing the prediction times before Init has no influence on
    whether Init succeeds nor on the reference line it derives. *)
Theorem Init_after_AlignPredictionTime (H : float) (config : PlanningConfig)
    (w : World) :
  ∃ ok w1 w2,
    Init config w = Some (ok, w1) ∧
    (_ ← AlignPredictionTime H; Init config) w = Some (ok, w2) ∧
    reference_line (this w2) = reference_line (this w1) ∧
    rli_reference_line <$> reference_line_info (this w2)
      = rli_reference_line <$> reference_line_info (this w1).
Proof.
  unfold mbind, M_bind. rewrite AlignPredictionTime_run, !Init_cases.
  cbn [pnc_map_ with_this this FLAGS init_pose_ with_prediction_
       routing_response_].
  destruct (pnc_map_ w) as [m|]; [|eexists _, _, _; repeat split].
  destruct (is_nan _ || is_nan _); [eexists _, _, _; repeat split|].
  destruct (CreatePathFromRouting _ _ _ _ _) as [path|];
    [|eexists _, _, _; repeat split].
  destruct (smooth _ _) as [[] l]; eexists _, _, _; repeat split.
Qed.

(** ** InitReferenceLineInfo on any number of reference lines *)

Lemma fresh_infos_lines (lines : list ReferenceLine) :
  rli_reference_line <$> fresh_infos lines = lines.
Proof.
  unfold fresh_infos. rewrite <- list_fmap_compose. apply list_fmap_id.
Qed.

Lemma attach_all_lines (items : list Obstacle) (infos : list ReferenceLineInfo) :
  rli_reference_line <$> (attach_all items infos).2
  = rli_reference_line <$> infos.
Proof.
  induction infos as [|info infos IH]; [reflexivity|]. cbn.
  destruct (AddObstacles _ _ _) as [[] st]; cbn; [rewrite IH|]; reflexivity.
Qed.

Lemma attach_all_fresh_flag (items : list Obstacle)
    (lines : list ReferenceLine) :
  (attach_all items (fresh_infos lines)).1
  = forallb (λ l, (candidate items l).1) lines.
Proof.
  rewrite attach_all_flag. unfold fresh_infos.
  induction lines as [|l lines IH]; [reflexivity|]. cbn. rewrite IH.
  reflexivity.
Qed.

(** The loop and its log of calls. *)
Lemma add_obstacles_from_trace (todo done : list ReferenceLineInfo)
    (w : World) :
  reference_line_info_ (this w) = done ++ todo →
  add_obstacles_from (seq (length done) (length todo)) w
  = Some ((attach_all (Items (obstacles_ (this w))) todo).1,
      with_calls
        (calls w ++
         (CallAddObstacles
            <$> seq (length done) (attempts (Items (obstacles_ (this w))) todo)))
        (with_this
           (with_reference_line_info_
              (done ++ (attach_all (Items (obstacles_ (this w))) todo).2)
              (this w)) w)).
Proof.
  revert done w. induction todo as [|info todo IH]; intros done w Hinfos.
  - cbn. rewrite !app_nil_r. rewrite app_nil_r in Hinfos.
    destruct w as [? ? [] ?]. cbn in *. subst. reflexivity.
  - cbn [length seq add_obstacles_from attach_all attempts].
    unfold add_obstacles_at. run_M.
    rewrite Hinfos, list_lookup_middle by reflexivity.
    run_M.
    destruct (AddObstacles _ _ _) as [ok st] eqn:Hadd. run_M. cbn [fst snd].
    rewrite Hinfos.
    rewrite insert_app_r_alt, Nat.sub_diag by reflexivity.
    cbn [insert list_insert].
    set (info' := {| rli_reference_line := rli_reference_line info;
                     rli_state := st |}).
    destruct ok.
    + set (w1 := with_this _ _).
      specialize (IH (done ++ [info']) w1).
      rewrite length_app, Nat.add_1_r in IH. rewrite IH.
      * subst w1. destruct w as [? ? [] ?]. cbn.
        unfold with_calls, with_this. cbn. rewrite <- !app_assoc. reflexivity.
      * subst w1. destruct w as [? ? [] ?]. cbn. rewrite <- app_assoc.
        reflexivity.
    + destruct w as [? ? [] ?]. reflexivity.
Qed.

Lemma InitReferenceLineInfo_trace (lines : list ReferenceLine) (w : World) :
  InitReferenceLineInfo lines w
  = Some ((attach_all (Items (obstacles_ (this w))) (fresh_infos lines)).1,
      with_calls
        (calls w ++
         (CallAddObstacles
            <$> seq 0 (attempts (Items (obstacles_ (this w)))
                         (fresh_infos lines))))
        (with_this
           (with_reference_line_info_
              (attach_all (Items (obstacles_ (this w))) (fresh_infos lines)).2
              (this w)) w)).
Proof.
  unfold InitReferenceLineInfo. run_M.
  rewrite for_each_emplace_back_run. run_M.
  set (w1 := with_this _ _).
  pose proof (add_obstacles_from_trace (fresh_infos lines) [] w1) as Hrun.
  subst w1. destruct w as [? ? [] ?]. cbn in *. rewrite Hrun by reflexivity.
  reflexivity.
Qed.

(** X9: InitReferenceLineInfo always returns, and it returns true exactly
    when AddObstacles succeeds on the fresh candidate of every reference
    line, the registry's items on offer; with no reference line it returns
    true. *)
Theorem InitReferenceLineInfo_flag (lines : list ReferenceLine) (w : World) :
  ∃ w',
    InitReferenceLineInfo lines w
    = Some (forallb (λ l, (candidate (Items (GetObstacles (this w))) l).1) lines,
            w').
Proof.
  eexists. rewrite InitReferenceLineInfo_trace, attach_all_fresh_flag.
  reflexivity.
Qed.

(** X10: whatever it returns, InitReferenceLineInfo leaves one candidate
    per reference line, in the order of the lines and each on its own line,
    in place of whatever the list held; it changes no other member of the
    frame (the registry included) and no static. *)
Theorem InitReferenceLineInfo_candidates (lines : list ReferenceLine)
    (w : World) :
  ∃ ok w',
    InitReferenceLineInfo lines w = Some (ok, w') ∧
    rli_reference_line <$> reference_line_info (this w') = lines ∧
    this w' = with_reference_line_info_ (reference_line_info (this w')) (this w) ∧
    pnc_map_ w' = pnc_map_ w ∧ FLAGS w' = FLAGS w.
Proof.
  eexists _, _. split; [apply InitReferenceLineInfo_trace|].
  cbn. rewrite attach_all_lines, fresh_infos_lines. repeat split.
Qed.

Lemma attach_all_stops (items : list Obstacle) (pre post : list ReferenceLine)
    (bad : ReferenceLine) :
  forallb (λ l, (candidate items l).1) pre = true →
  (candidate items bad).1 = false →
  attach_all items (fresh_infos (pre ++ bad :: post))
  = (false,
     ((λ l, (candidate items l).2) <$> pre) ++
     (candidate items bad).2 :: fresh_infos post) ∧
  attempts items (fresh_infos (pre ++ bad :: post)) = S (length pre).
Proof.
  intros Hpre Hbad. induction pre as [|l pre IH].
  - unfold candidate in Hbad. cbn in *.
    destruct (AddObstacles _ _ _) as [ok st]. cbn in *. subst ok.
    split; reflexivity.
  - cbn in Hpre. apply andb_prop in Hpre as [Hl Hpre].
    destruct (IH Hpre) as [IHa IHn].
    unfold fresh_infos in *. unfold candidate in Hl. cbn in *.
    destruct (AddObstacles items l _) as [ok st]. cbn in *. subst ok.
    rewrite IHa, IHn. split; reflexivity.
Qed.

(** X11: the attachment loop leaves at the first candidate on which
    AddObstacles fails: InitReferenceLineInfo returns false, the candidates
    before it are attached, the failing one holds what AddObstacles left,
    the ones behind it are as constructed, without obstacles offered, and
    AddObstacles was called once per candidate up to the failing one. *)
Theorem InitReferenceLineInfo_stops_at_failure (pre post : list ReferenceLine)
    (bad : ReferenceLine) (w : World) :
  forallb (λ l, (candidate (Items (GetObstacles (this w))) l).1) pre = true →
  (candidate (Items (GetObstacles (this w))) bad).1 = false →
  ∃ w',
    InitReferenceLineInfo (pre ++ bad :: post) w = Some (false, w') ∧
    reference_line_info (this w')
      = ((λ l, (candidate (Items (GetObstacles (this w))) l).2) <$> pre) ++
        (candidate (Items (GetObstacles (this w))) bad).2 :: fresh_infos post ∧
    calls w' = calls w ++ (CallAddObstacles <$> seq 0 (S (length pre))).
Proof.
  intros Hpre Hbad.
  destruct (attach_all_stops _ pre post bad Hpre Hbad) as [Ha Hn].
  eexists. rewrite InitReferenceLineInfo_trace.
  unfold GetObstacles in *. rewrite Ha, Hn. repeat split.
Qed.

Lemma attach_all_succeeds (items : list Obstacle) (lines : list ReferenceLine) :
  forallb (λ l, (candidate items l).1) lines = true →
  attach_all items (fresh_infos lines)
  = (true, (λ l, (candidate items l).2) <$> lines) ∧
  attempts items (fresh_infos lines) = length lines.
Proof.
  intros Hall. induction lines as [|l lines IH]; [split; reflexivity|].
  cbn in Hall. apply andb_prop in Hall as [Hl Hall].
  destruct (IH Hall) as [IHa IHn].
  unfold fresh_infos in *. unfold candidate in Hl. cbn in *.
  destruct (AddObstacles items l _) as [ok st]. cbn in *. subst ok.
  rewrite IHa, IHn. split; reflexivity.
Qed.

(** X12: when AddObstacles succeeds on every candidate,
    InitReferenceLineInfo returns true, every candidate holds what its
    AddObstacles left, and AddObstacles was called exactly once per
    reference line, in order. *)
Theorem InitReferenceLineInfo_all_attached (lines : list ReferenceLine)
    (w : World) :
  forallb (λ l, (candidate (Items (GetObstacles (this w))) l).1) lines = true →
  ∃ w',
    InitReferenceLineInfo lines w = Some (true, w') ∧
    reference_line_info (this w')
      = (λ l, (candidate (Items (GetObstacles (this w))) l).2) <$> lines ∧
    calls w' = calls w ++ (CallAddObstacles <$> seq 0 (length lines)).
Proof.
  intros Hall. destruct (attach_all_succeeds _ lines Hall) as [Ha Hn].
  eexists. rewrite InitReferenceLineInfo_trace.
  unfold GetObstacles in *. rewrite Ha, Hn. repeat split.
Qed.

(** X13: InitReferenceLineInfo starts from a cleared list, so running it a
    second time on the same reference lines returns the same flag and
    leaves the same frame as running it once. *)
Theorem InitReferenceLineInfo_twice (lines : list ReferenceLine) (w : World) :
  ∃ ok w1 w2,
    InitReferenceLineInfo lines w = Some (ok, w1) ∧
    InitReferenceLineInfo lines w1 = Some (ok, w2) ∧
    this w2 = this w1.
Proof.
  eexists _, _, _. split; [apply InitReferenceLineInfo_trace|].
  rewrite InitReferenceLineInfo_trace. destruct w as [? ? [] ?].
  split; reflexivity.
Qed.

(** ** More on the registry, the time base and the debug string *)

(** X14: CreatePredictionObstacles calls CreateObstacles once and Add
    exactly once per obstacle it got, in their order and each under the
    obstacle's own identity; with no obstacle made, Add is not called. *)
Theorem CreatePredictionObstacles_calls (prediction : PredictionObstacles)
    (w : World) :
  ∃ w',
    CreatePredictionObstacles prediction w = Some (tt, w') ∧
    calls w'
      = calls w ++ CallCreateObstacles ::
          ((λ o, CallAdd (Id o)) <$> CreateObstacles prediction).
Proof. eexists. split; [apply CreatePredictionObstacles_run|reflexivity]. Qed.

(** X15: building the registry from one prediction set and then from
    another on the same frame accumulates: the registry is the one obtained
    by offering all obstacles of the first set and then all of the second
    to the registry the frame had. *)
Theorem CreatePredictionObstacles_twice (p1 p2 : PredictionObstacles)
    (w : World) :
  ∃ w',
    (_ ← CreatePredictionObstacles p1; CreatePredictionObstacles p2) w
      = Some (tt, w') ∧
    GetObstacles (this w')
      = ingest (CreateObstacles p1 ++ CreateObstacles p2) (GetObstacles (this w)).
Proof.
  eexists. unfold mbind, M_bind.
  rewrite !CreatePredictionObstacles_run. split; [reflexivity|].
  unfold ingest. rewrite foldl_app. reflexivity.
Qed.

Lemma align_trajectory_no_points (T H : float) (tr : Trajectory) :
  trajectory_point tr = [] → align_trajectory T H tr = tr.
Proof. destruct tr as [points other]. cbn. intros ->. reflexivity. Qed.

Lemma align_obstacle_no_points (T H : float) (ob : PredictionObstacle) :
  Forall (λ tr, trajectory_point tr = []) (trajectory ob) →
  align_obstacle T H ob = ob.
Proof.
  intros Hall.
  assert (trajectory (align_obstacle T H ob) = trajectory ob) as Htr.
  { rewrite align_obstacle_trajectories.
    rewrite <- (list_fmap_id (trajectory ob)) at 2.
    apply list_fmap_ext. intros i tr Hi. unfold id.
    apply align_trajectory_no_points.
    exact (proj1 (Forall_lookup _ _) Hall i tr Hi). }
  destruct ob as [trs other]. unfold align_obstacle in *. cbn in *.
  rewrite Htr. reflexivity.
Qed.

Lemma align_prediction_no_points (H : float) (p : PredictionObstacles) :
  (∀ i j k, point_at p i j k = None) → align_prediction H p = p.
Proof.
  intros Hnone.
  assert (prediction_obstacle (align_prediction H p) = prediction_obstacle p)
    as Hobs.
  { rewrite align_prediction_obstacles.
    rewrite <- (list_fmap_id (prediction_obstacle p)) at 2.
    apply list_fmap_ext. intros i ob Hi. unfold id.
    apply align_obstacle_no_points, Forall_lookup_2. intros j tr Hj.
    specialize (Hnone i j 0%nat). unfold point_at in Hnone.
    rewrite Hi in Hnone. cbn in Hnone. rewrite Hj in Hnone. cbn in Hnone.
    destruct (trajectory_point tr); [reflexivity|discriminate]. }
  destruct p as [hd obs other]. unfold align_prediction in *. cbn in *.
  rewrite Hobs. reflexivity.
Qed.

(** X16: on a prediction set without trajectory points (no obstacle, or
    obstacles without trajectories, or trajectories without points)
    AlignPredictionTime changes nothing at all. *)
Theorem AlignPredictionTime_no_points (H : float) (w : World) :
  (∀ i j k, point_at (prediction_ (this w)) i j k = None) →
  AlignPredictionTime H w = Some (tt, w).
Proof.
  intros Hnone. rewrite AlignPredictionTime_run.
  rewrite (align_prediction_no_points H _ Hnone).
  destruct w as [? ? [] ?]. reflexivity.
Qed.

(** X17: the debug string of a frame tells its sequence number: two frames
    have the same debug string exactly when they have the same sequence
    number. *)
Theorem DebugString_inj (f1 f2 : Frame) :
  DebugString f1 = DebugString f2 ↔ sequence_num_ f1 = sequence_num_ f2.
Proof.
  unfold DebugString. split; [|intros ->; reflexivity].
  cbn. intros [= Heq]. exact (pretty_N_inj _ _ Heq).
Qed.

End Properties.

(** * The properties on concrete runs *)

Import Demo.

Lemma Init_without_map_witness :
  ∃ w', Init (Demo.config true)
          (Demo.world None true
             (Demo.frame 10 5 true (Demo.prediction 100 [] [])))
        = Some (false, w') ∧
        reference_line_info (this w') = [] ∧
        calls w' = [] ∧
        this w' = Demo.frame 10 5 true (Demo.prediction 100 [] []).
Proof.
  apply (Init_without_map (Demo.config true)
           (Demo.world None true
              (Demo.frame 10 5 true (Demo.prediction 100 [] []))));
    reflexivity.
Defined.

Lemma Init_nan_pose_witness :
  ∃ w', Init (Demo.config true)
          (Demo.world (Some tt) true
             (Demo.frame nan 5 true (Demo.prediction 100 [] [])))
        = Some (false, w') ∧
        calls w' = [] ∧
        this w' = Demo.frame nan 5 true (Demo.prediction 100 [] []).
Proof.
  apply (Init_nan_pose (Demo.config true)
           (Demo.world (Some tt) true
              (Demo.frame nan 5 true (Demo.prediction 100 [] []))));
    reflexivity.
Defined.

Lemma Init_success_witness :
  ∃ w' first,
    Init (Demo.config true) Demo.scenario = Some (true, w') ∧
    reference_line_info (this w') ≠ [] ∧
    reference_line_info (this w') !! 0%nat = Some first ∧
    reference_line (this w') = rli_reference_line first ∧
    reference_line (this w') = 7%nat.
Proof.
  apply (Init_success (Demo.config true) Demo.scenario tt 7%nat 7%nat);
    reflexivity.
Defined.

(** Pose (10, 5) on the routing, smoothing converges, and the prediction
    set holds one obstacle without identity, which the stand-in for
    AddObstacles refuses. *)
Lemma Init_succeeds_when_attachment_fails_witness :
  ∃ w1,
    InitReferenceLineInfo [7%nat]
      (before_attach (Demo.config true)
         (Demo.world (Some tt) true
            (Demo.frame 10 5 true
               (Demo.prediction 100 [""%string] [0.5%float]))))
    = Some (false, w1) ∧
    Init (Demo.config true)
      (Demo.world (Some tt) true
         (Demo.frame 10 5 true (Demo.prediction 100 [""%string] [0.5%float])))
    = Some (true, finish_Init 7%nat w1).
Proof.
  eexists. split; [reflexivity|].
  apply (Init_succeeds_when_attachment_fails (Demo.config true) _ _ tt 7%nat);
    reflexivity.
Defined.

Lemma Init_rebuilds_candidates_not_registry_witness :
  ∃ w',
    Init (Demo.config true) Demo.scenario = Some (true, w') ∧
    reference_line_info (this w')
      = [(candidate (Items (GetObstacles (this w'))) 7%nat).2] ∧
    GetObstacles (this w') = [("99"%string, "99"%string)].
Proof.
  exact (Init_rebuilds_candidates_not_registry (Demo.config true)
           Demo.scenario tt 7%nat 7%nat eq_refl eq_refl eq_refl eq_refl).
Defined.

Lemma CreateReferenceLineFromRouting_effect_witness :
  ∃ ok lines' w',
    CreateReferenceLineFromRouting (PointENU.mk 10 5) Demo.on_route [3%nat]
      (Demo.configured true Demo.scenario)
      = Some ((ok, lines'), w') ∧
    this w' = this (Demo.configured true Demo.scenario) ∧
    pnc_map_ w' = Some tt ∧ FLAGS w' = Demo.flags true ∧
    ok = true ∧ lines' = [3%nat; 7%nat].
Proof.
  exact (CreateReferenceLineFromRouting_effect (PointENU.mk 10 5)
           Demo.on_route [3%nat] (Demo.configured true Demo.scenario) tt
           eq_refl).
Defined.

(** Header 100.0 s, a point at 0.5 s, trajectory header time 101.0 s: the
    point moves to -0.5 s. *)
Lemma AlignPredictionTime_relative_time_witness :
  ∃ w' pt',
    AlignPredictionTime 101 Demo.scenario = Some (tt, w') ∧
    point_at (prediction_ (this w')) 0 0 0 = Some pt' ∧
    relative_time pt' = (-0.5)%float.
Proof.
  apply (AlignPredictionTime_relative_time 101 Demo.scenario 0 0 0
           (Demo.point 0.5)).
  reflexivity.
Defined.

(** The same point under two calls: -0.5 s, then -1.5 s. *)
Lemma AlignPredictionTime_twice_witness :
  ∃ (w1 w2 : World) (pt1 pt2 : TrajectoryPoint),
    AlignPredictionTime 101 Demo.scenario = Some (tt, w1) ∧
    AlignPredictionTime 101 w1 = Some (tt, w2) ∧
    point_at (prediction_ (this w1)) 0 0 0 = Some pt1 ∧
    point_at (prediction_ (this w2)) 0 0 0 = Some pt2 ∧
    relative_time pt1 = (-0.5)%float ∧ relative_time pt2 = (-1.5)%float ∧
    relative_time pt2 ≠ relative_time pt1.
Proof.
  destruct (AlignPredictionTime_twice 101 Demo.scenario 0 0 0 (Demo.point 0.5)
              eq_refl)
    as (w1 & w2 & pt1 & pt2 & Hrun1 & Hrun2 & Hpt1 & Hpt2 & _ & H1 & H2).
  exists w1, w2, pt1, pt2.
  assert (relative_time pt1 = (-0.5)%float) as E1 by exact H1.
  assert (relative_time pt2 = (-1.5)%float) as E2
    by (rewrite H2, E1; reflexivity).
  repeat split; [exact Hrun1|exact Hrun2|exact Hpt1|exact Hpt2|exact E1|exact E2|].
  rewrite E1, E2. discriminate.
Defined.

(** ** Runs on which a claim fails as it is worded *)

(** Against C5: a pose at (10, 5) whose heading is not a number.  Init
    reads x and y only: it calls the map and returns true. *)
Lemma nan_heading_not_rejected :
  let w := DemoHeading.world 10 5 nan in
  is_nan (pose_other (init_pose_ (this w))) = true ∧
  ∃ w',
    Init (Ext := DemoHeading.collaborators) DemoHeading.config w
      = Some (true, w') ∧
    calls w'
      = [CallCreatePathFromRouting (PointENU.mk 10 5); CallSmooth;
         CallCreateObstacles; CallAddObstacles 0].
Proof.
  split; [reflexivity|]. eexists. split; [vm_compute; reflexivity|reflexivity].
Qed.

(** Against C6: a prediction set with the identity "a" twice.  Init does
    not fail, the registry is built without complaint, and it holds one
    entry for the two obstacles. *)
Lemma duplicate_identity_not_rejected :
  let w := Demo.world (Some tt) true
             (Demo.frame 10 5 true
                (Demo.prediction 100 ["a"; "a"]%string [])) in
  (∃ w', Init (Demo.config true) w = Some (true, w')) ∧
  ∃ w', CreatePredictionObstacles (prediction_ (this w)) w = Some (tt, w') ∧
        CreateObstacles (prediction_ (this w)) = ["a"; "a"]%string ∧
        Items (GetObstacles (this w')) = ["a"%string].
Proof.
  split.
  - eexists. vm_compute. reflexivity.
  - eexists. split; [vm_compute; reflexivity|]. split; reflexivity.
Qed.

(** Against C7: header time 100.0 s and trajectory header time 100.0 s; the
    point at 0.5 s is at 0.5 s after the first call and after the second. *)
Lemma second_rebase_can_leave_value :
  ¬ (∀ (w1 w2 : World) (pt1 pt2 : TrajectoryPoint),
       AlignPredictionTime 100 Demo.scenario = Some (tt, w1) →
       AlignPredictionTime 100 w1 = Some (tt, w2) →
       point_at (prediction_ (this w1)) 0 0 0 = Some pt1 →
       point_at (prediction_ (this w2)) 0 0 0 = Some pt2 →
       relative_time pt2 ≠ relative_time pt1).
Proof. intros Hclaim. eapply Hclaim; reflexivity. Qed.

(** Against C8: Init, a new prediction set, Init again on the same frame.
    The obstacle "1" of the first prediction set is still in the registry,
    though the prediction set of the second call only holds "2". *)
Lemma earlier_obstacle_survives_Init :
  let w0 := Demo.world (Some tt) true
              (Demo.frame 10 5 true (Demo.prediction 100 ["1"%string] [])) in
  ∃ w2,
    (_ ← Init (Demo.config true);
     _ ← SetPrediction (Demo.prediction 101 ["2"%string] []);
     Init (Demo.config true)) w0 = Some (true, w2) ∧
    CreateObstacles (prediction_ (this w2)) = ["2"%string] ∧
    Items (GetObstacles (this w2)) = ["1"; "2"]%string.
Proof. eexists. split; [vm_compute; reflexivity|]. split; reflexivity. Qed.

(** Against C8, the candidate list: a second Init that fails at the builder
    leaves the candidate of the first Init in the list. *)
Lemma earlier_candidate_survives_failed_Init :
  ∃ w2,
    (_ ← Init (Demo.config true);
     _ ← SetRoutingResponse Demo.off_route;
     Init (Demo.config true)) Demo.scenario = Some (false, w2) ∧
    reference_line_info (this w2)
      = [{| rli_reference_line := 7%nat; rli_state := ["99"%string] |}].
Proof. eexists. split; [vm_compute; reflexivity|]. reflexivity. Qed.

(** Against C9: the map finds a path and smoothing fails.  The call returns
    false and the vector, empty before, holds a line. *)
Lemma failed_smoothing_leaves_line :
  ¬ (∀ (lines' : list ReferenceLine) (w' : World),
       CreateReferenceLineFromRouting (PointENU.mk 10 5) Demo.on_route [] Demo.scenario
         = Some ((false, lines'), w') →
       lines' = []).
Proof.
  intros Hclaim.
  specialize (Hclaim _ _ eq_refl). discriminate Hclaim.
Qed.

(** ** Further runs *)

Lemma Init_failure_keeps_frame_witness :
  ∃ w',
    Init (Demo.config true) Demo.scenario_off_route = Some (false, w') ∧
    reference_line_info (this w') = [] ∧
    GetObstacles (this w') = [] ∧
    reference_line (this w') = 0%nat ∧
    path_decision (this w') = None ∧
    prediction_ (this w') = prediction_ (this Demo.scenario_off_route) ∧
    pnc_map_ w' = Some tt ∧ FLAGS w' = Demo.flags true.
Proof.
  eexists. split; [vm_compute; reflexivity|].
  exact (Init_failure_keeps_frame (Demo.config true) Demo.scenario_off_route
           _ eq_refl).
Defined.

Lemma Init_map_path_failure_witness :
  ∃ w',
    Init (Demo.config true) Demo.scenario_off_route = Some (false, w') ∧
    calls w' = [CallCreatePathFromRouting (PointENU.mk 10 5)] ∧
    this w' = with_smoother_config_ true (this Demo.scenario_off_route).
Proof.
  exact (Init_map_path_failure (Demo.config true) Demo.scenario_off_route tt
           eq_refl eq_refl eq_refl).
Defined.

Lemma Init_smoothing_failure_witness :
  ∃ w',
    Init (Demo.config false) Demo.scenario = Some (false, w') ∧
    calls w' = [CallCreatePathFromRouting (PointENU.mk 10 5); CallSmooth] ∧
    this w' = with_smoother_config_ false (this Demo.scenario).
Proof.
  exact (Init_smoothing_failure (Demo.config false) Demo.scenario tt 7%nat
           0%nat eq_refl eq_refl eq_refl eq_refl).
Defined.

Lemma Init_success_calls_witness :
  ∃ w',
    Init (Demo.config true) Demo.scenario = Some (true, w') ∧
    calls w'
      = [CallCreatePathFromRouting (PointENU.mk 10 5); CallSmooth;
         CallCreateObstacles; CallAdd "99"; CallAddObstacles 0].
Proof.
  exact (Init_success_calls (Demo.config true) Demo.scenario tt 7%nat 7%nat
           eq_refl eq_refl eq_refl eq_refl).
Defined.

Lemma Init_true_postcondition_witness :
  ∃ first,
    reference_line_info
      (this (after_Init (Demo.config true) 7%nat Demo.scenario)) = [first] ∧
    path_decision (this (after_Init (Demo.config true) 7%nat Demo.scenario))
      = Some (rli_state first) ∧
    reference_line (this (after_Init (Demo.config true) 7%nat Demo.scenario))
      = rli_reference_line first.
Proof.
  exact (Init_true_postcondition (Demo.config true) Demo.scenario
           (after_Init (Demo.config true) 7%nat Demo.scenario) eq_refl).
Defined.

(** The registry refuses the identity it already holds: after the second
    Init it still has one entry. *)
Lemma Init_again_witness :
  ∃ w2,
    Init (Demo.config true) (after_Init (Demo.config true) 7%nat Demo.scenario)
      = Some (true, w2) ∧
    reference_line (this w2) = 7%nat ∧
    length (reference_line_info (this w2)) = 1%nat ∧
    GetObstacles (this w2) = [("99"%string, "99"%string)].
Proof.
  exact (Init_again (Demo.config true) Demo.scenario
           (after_Init (Demo.config true) 7%nat Demo.scenario) eq_refl).
Defined.

(** Three reference lines, the second of which is refused: the first is
    attached, the third is as constructed. *)
Lemma InitReferenceLineInfo_stops_at_failure_witness :
  ∃ w',
    InitReferenceLineInfo (Ext := Demo.picky) [7; 0; 9]%nat
      (after_Init (Demo.config true) 7%nat Demo.scenario) = Some (false, w') ∧
    reference_line_info (this w')
      = [ {| rli_reference_line := 7%nat; rli_state := ["99"%string] |};
          {| rli_reference_line := 0%nat; rli_state := [] |};
          {| rli_reference_line := 9%nat; rli_state := [] |} ] ∧
    calls w'
      = calls (after_Init (Demo.config true) 7%nat Demo.scenario) ++
        [CallAddObstacles 0; CallAddObstacles 1].
Proof.
  exact (InitReferenceLineInfo_stops_at_failure (Ext := Demo.picky)
           [7%nat] [9%nat] 0%nat
           (after_Init (Demo.config true) 7%nat Demo.scenario)
           eq_refl eq_refl).
Defined.

Lemma InitReferenceLineInfo_all_attached_witness :
  ∃ w',
    InitReferenceLineInfo (Ext := Demo.picky) [7; 9]%nat
      (after_Init (Demo.config true) 7%nat Demo.scenario) = Some (true, w') ∧
    reference_line_info (this w')
      = [ {| rli_reference_line := 7%nat; rli_state := ["99"%string] |};
          {| rli_reference_line := 9%nat; rli_state := ["99"%string] |} ] ∧
    calls w'
      = calls (after_Init (Demo.config true) 7%nat Demo.scenario) ++
        [CallAddObstacles 0; CallAddObstacles 1].
Proof.
  exact (InitReferenceLineInfo_all_attached (Ext := Demo.picky) [7; 9]%nat
           (after_Init (Demo.config true) 7%nat Demo.scenario) eq_refl).
Defined.

Lemma AlignPredictionTime_no_points_witness :
  AlignPredictionTime 101 Demo.scenario_no_obstacle
  = Some (tt, Demo.scenario_no_obstacle).
Proof.
  apply (AlignPredictionTime_no_points 101 Demo.scenario_no_obstacle).
  intros i j k. reflexivity.
Defined.
